(** * Database storage adapter of mcp-remote: a shallow embedding

    The development follows [database-storage] (the adapter: [encrypt],
    [decrypt], the read cache, [DatabaseStorage], [getStorage] and the
    exported wrappers) and [database-prisma-client] ([getPrismaClient]).

    Asynchronous functions are run to completion one after the other: an
    [await] is sequencing, a rejected promise is a thrown error.  Everything
    the module reads or mutates lives in one [World] record that is threaded
    through the calls. *)

From Stdlib Require Import ZArith String Ascii List Bool Lia.
From Stdlib.Strings Require Import Byte.
From stdpp Require Import base option list strings pretty gmap.

Local Open Scope string_scope.
Local Open Scope Z_scope.
Set Warnings "-register-all".

(** ** JavaScript values and errors *)

(** What a parameter typed [any] can hold, as far as the adapter looks at it:
    truthiness, [typeof], strict comparison with [null], one property read.
    Numbers are the integers: of a number the adapter only ever asks whether
    it is falsy, and [NaN] is no JSON value. *)
Inductive JsValue : Type :=
| JUndefined
| JNull
| JBool (b : bool)
| JNumber (n : Z)
| JString (s : string)
| JArray (items : list JsValue)
| JObject (fields : list (string * JsValue)).

(** Thrown values.  [PrismaError] carries the [code] property that the
    record store sets on its request errors ([P2025]: record not found). *)
Inductive JsError : Type :=
| ReferenceError (identifier : string)
| TypeError (msg : string)
| SyntaxError (msg : string)
| CryptoError (msg : string)
| PrismaError (code : string)
| Error (msg : string).

Inductive Result (A : Type) : Type :=
| Ok (a : A)
| Throw (e : JsError).
Arguments Ok {A} a.
Arguments Throw {A} e.

(** [!v] is [negb (truthy v)]. *)
Definition truthy (v : JsValue) : bool :=
  match v with
  | JUndefined | JNull => false
  | JBool b => b
  | JNumber n => negb (n =? 0)%Z
  | JString s => negb (String.eqb s "")
  | JArray _ | JObject _ => true
  end.

(** [v !== null] *)
Definition not_null (v : JsValue) : bool :=
  match v with JNull => false | _ => true end.

(** [typeof v !== 'string'] *)
Definition typeof_not_string (v : JsValue) : bool :=
  match v with JString _ => false | _ => true end.

(** Truthiness of a [string | undefined], as for [process.env.X] and an
    optional string parameter. *)
Definition str_truthy (o : option string) : bool :=
  match o with
  | Some s => negb (String.eqb s "")
  | None => false
  end.

(** [o || d] on a [string | undefined]. *)
Definition str_or (o : option string) (d : string) : string :=
  match o with
  | Some s => if String.eqb s "" then d else s
  | None => d
  end.

Fixpoint assoc_field (k : string) (fields : list (string * JsValue)) : JsValue :=
  match fields with
  | [] => JUndefined
  | (k', v) :: rest => if String.eqb k k' then v else assoc_field k rest
  end.

(** [v.name]: a [TypeError] on [null] and [undefined], the field of an
    object, [undefined] otherwise. *)
Definition get_property (v : JsValue) (name : string) : Result JsValue :=
  match v with
  | JUndefined => Throw (TypeError "Cannot read properties of undefined")
  | JNull => Throw (TypeError "Cannot read properties of null")
  | JObject fields => Ok (assoc_field name fields)
  | _ => Ok JUndefined
  end.

(** A value that passed [typeof v === 'string'], at type [string]. *)
Definition as_string (v : JsValue) : string :=
  match v with JString s => s | _ => "" end.

(** [(error as any).code !== c] *)
Definition code_differs (e : JsError) (c : string) : bool :=
  match e with
  | PrismaError code => negb (String.eqb code c)
  | _ => true
  end.

(** ** Strings: [split(':')] and hex buffers *)

(** [s.split(sep)] for a one-character separator. *)
Fixpoint split (sep : ascii) (s : string) : list string :=
  match s with
  | EmptyString => [EmptyString]
  | String c rest =>
      if Ascii.eqb c sep then EmptyString :: split sep rest
      else match split sep rest with
           | [] => [String c EmptyString]
           | p :: ps => String c p :: ps
           end
  end.

Definition colon : ascii := ":"%char.

Definition hex_digit (n : N) : ascii :=
  match n with
  | 0%N => "0" | 1%N => "1" | 2%N => "2" | 3%N => "3"
  | 4%N => "4" | 5%N => "5" | 6%N => "6" | 7%N => "7"
  | 8%N => "8" | 9%N => "9" | 10%N => "a" | 11%N => "b"
  | 12%N => "c" | 13%N => "d" | 14%N => "e" | _ => "f"
  end%char.

Definition hex_value (c : ascii) : option N :=
  let n := N_of_ascii c in
  if ((48 <=? n) && (n <=? 57))%N then Some (n - 48)%N
  else if ((97 <=? n) && (n <=? 102))%N then Some (n - 87)%N
  else if ((65 <=? n) && (n <=? 70))%N then Some (n - 55)%N
  else None.

Definition byte_of_N (n : N) : byte :=
  match Byte.of_N n with Some b => b | None => Byte.x00 end.

(** [buf.toString('hex')] *)
Fixpoint hex_encode (bs : list byte) : string :=
  match bs with
  | [] => EmptyString
  | b :: rest =>
      let n := Byte.to_N b in
      String (hex_digit (n / 16)) (String (hex_digit (n mod 16)) (hex_encode rest))
  end.

(** The bytes of a hex string, as [Buffer.from(s, 'hex')] decodes it: pairs
    of digits of either case, cut at the first pair that is not hex. *)
Fixpoint hex_decode (s : string) : list byte :=
  match s with
  | String a (String b rest) =>
      match hex_value a, hex_value b with
      | Some h, Some l => byte_of_N (16 * h + l) :: hex_decode rest
      | _, _ => []
      end
  | _ => []
  end.

(** [Buffer.from(x, 'hex')] where [x] may be [undefined] (an index past the
    end of an array). *)
Definition Buffer_from_hex (x : option string) : Result (list byte) :=
  match x with
  | Some s => Ok (hex_decode s)
  | None => Throw (TypeError "The first argument must be of type string. Received undefined")
  end.

(** The bytes [decipher.update(x, 'hex', 'utf8')] reads from its argument.
    Unlike [Buffer.from], it refuses a string with an odd number of
    characters ([x.length], whatever the characters are) before it decodes
    anything; [x] is [None] for [undefined]. *)
Definition update_hex (x : option string) : Result (list byte) :=
  match x with
  | None => Throw (TypeError "The data argument must be of type string. Received undefined")
  | Some s =>
      if Nat.odd (String.length s)
      then Throw (TypeError ("The argument 'encoding' is invalid for data of length "
                             +:+ pretty (String.length s) +:+ ". Received 'hex'"))
      else Ok (hex_decode s)
  end.

(** ** The process: configuration, objects, record store, world *)

(** The settings the modules read from [process.env]. *)
Record ProcessEnv : Type := mkEnv {
  env_ENCRYPTION_KEY : option string;
  env_MCP_STORAGE_TYPE : option string;
  env_MCP_USER_ID : option string;
  env_MCP_CONNECTION_ID : option string;
  env_DATABASE_URL : option string
}.

(** An instance of [class DatabaseStorage]: its two private fields, and the
    identity of the object ([oid]), which tells one [new] from another. *)
Record DatabaseStorage : Type := mkStorage {
  oid : nat;
  userId : string;
  connectionId : string
}.

(** A [PrismaClient], by the datasource it was constructed with. *)
Record PrismaClient : Type := mkClient {
  datasource_url : string
}.

(** [{ data, timestamp }] *)
Record CacheEntry : Type := mkEntry {
  data : JsValue;
  timestamp : Z
}.

(** Rows of the three models the adapter addresses, with the columns it
    writes.  A column the adapter leaves to the schema on create is [None]. *)
Record TokenRow : Type := mkTokenRow {
  tokenData : string;
  tokenType : JsValue;
  token_serverUrl : string;
  lastUpdated : option Z
}.

Record ClientInfoRow : Type := mkClientInfoRow {
  clientData : string;
  client_updatedAt : option Z
}.

Record StorageRow : Type := mkStorageRow {
  value : string;
  storage_updatedAt : option Z
}.

(** The record store behind a client: three tables by their unique keys
    ([userId_connectionId_serverHash], [serverUrl], [userId_connectionId_key]),
    an [outage] that, when set, is the error every request fails with, and
    the time a request takes. *)
Record Database : Type := mkDb {
  mCPRemoteToken : gmap (string * string * string) TokenRow;
  mCPRemoteClientInfo : gmap string ClientInfoRow;
  mCPRemoteStorage : gmap (string * string * string) StorageRow;
  outage : option JsError;
  latency : Z
}.

Inductive Table : Type := TokenTable | ClientInfoTable | StorageTable.
Inductive Request : Type := FindUnique | Upsert | Delete.

(** What a run leaves behind that is no part of a return value. *)
Inductive Event : Type :=
| Logged (msg : string) (error : JsError)
| Queried (req : Request) (table : Table)
| Validated (v : JsValue).

Record World : Type := mkWorld {
  now : Z;                                   (* the clock [Date.now()] reads *)
  entropy : nat -> list byte;                (* what [crypto.randomBytes(16)] returns, call by call *)
  drawn : nat;                               (* calls of [randomBytes] so far *)
  cache : gmap string CacheEntry;            (* [const cache = new Map()] *)
  storageInstance : option DatabaseStorage;  (* [let storageInstance] *)
  prisma_module : option PrismaClient;       (* [let prisma] of the client module *)
  prisma_global : option PrismaClient;       (* what a free identifier [prisma] resolves to *)
  db : Database;
  next_oid : nat;
  trace : list Event
}.

Definition set_now (f : Z -> Z) (w : World) : World :=
  mkWorld (f (now w)) (entropy w) (drawn w) (cache w) (storageInstance w)
          (prisma_module w) (prisma_global w) (db w) (next_oid w) (trace w).

Definition set_drawn (f : nat -> nat) (w : World) : World :=
  mkWorld (now w) (entropy w) (f (drawn w)) (cache w) (storageInstance w)
          (prisma_module w) (prisma_global w) (db w) (next_oid w) (trace w).

Definition set_cache (f : gmap string CacheEntry -> gmap string CacheEntry) (w : World) : World :=
  mkWorld (now w) (entropy w) (drawn w) (f (cache w)) (storageInstance w)
          (prisma_module w) (prisma_global w) (db w) (next_oid w) (trace w).

Definition set_storageInstance (s : option DatabaseStorage) (w : World) : World :=
  mkWorld (now w) (entropy w) (drawn w) (cache w) s
          (prisma_module w) (prisma_global w) (db w) (next_oid w) (trace w).

Definition set_prisma_module (c : option PrismaClient) (w : World) : World :=
  mkWorld (now w) (entropy w) (drawn w) (cache w) (storageInstance w)
          c (prisma_global w) (db w) (next_oid w) (trace w).

Definition set_prisma_global (c : option PrismaClient) (w : World) : World :=
  mkWorld (now w) (entropy w) (drawn w) (cache w) (storageInstance w)
          (prisma_module w) c (db w) (next_oid w) (trace w).

Definition set_db (f : Database -> Database) (w : World) : World :=
  mkWorld (now w) (entropy w) (drawn w) (cache w) (storageInstance w)
          (prisma_module w) (prisma_global w) (f (db w)) (next_oid w) (trace w).

Definition set_next_oid (f : nat -> nat) (w : World) : World :=
  mkWorld (now w) (entropy w) (drawn w) (cache w) (storageInstance w)
          (prisma_module w) (prisma_global w) (db w) (f (next_oid w)) (trace w).

Definition emit (ev : Event) (w : World) : World :=
  mkWorld (now w) (entropy w) (drawn w) (cache w) (storageInstance w)
          (prisma_module w) (prisma_global w) (db w) (next_oid w) (trace w ++ [ev]).

Definition set_tokens (f : gmap (string * string * string) TokenRow ->
                           gmap (string * string * string) TokenRow) (d : Database) : Database :=
  mkDb (f (mCPRemoteToken d)) (mCPRemoteClientInfo d) (mCPRemoteStorage d) (outage d) (latency d).

Definition set_clientInfos (f : gmap string ClientInfoRow -> gmap string ClientInfoRow)
    (d : Database) : Database :=
  mkDb (mCPRemoteToken d) (f (mCPRemoteClientInfo d)) (mCPRemoteStorage d) (outage d) (latency d).

Definition set_storages (f : gmap (string * string * string) StorageRow ->
                             gmap (string * string * string) StorageRow) (d : Database) : Database :=
  mkDb (mCPRemoteToken d) (mCPRemoteClientInfo d) (f (mCPRemoteStorage d)) (outage d) (latency d).

Definition set_outage (o : option JsError) (d : Database) : Database :=
  mkDb (mCPRemoteToken d) (mCPRemoteClientInfo d) (mCPRemoteStorage d) o (latency d).

(** ** Computations: state and exceptions *)

Definition M (A : Type) : Type := World -> Result A * World.

Definition ret {A} (a : A) : M A := fun w => (Ok a, w).

Definition throw {A} (e : JsError) : M A := fun w => (Throw e, w).

Definition bind {A B} (m : M A) (k : A -> M B) : M B :=
  fun w => match m w with
           | (Ok a, w') => k a w'
           | (Throw e, w') => (Throw e, w')
           end.

(** [try { body } catch (error) { handler }] *)
Definition try_catch {A} (body : M A) (handler : JsError -> M A) : M A :=
  fun w => match body w with
           | (Ok a, w') => (Ok a, w')
           | (Throw e, w') => handler e w'
           end.

Definition lift {A} (r : Result A) : M A := fun w => (r, w).

Notation "'let!' x ':=' m 'in' k" := (bind m (fun x => k))
  (at level 10, x name, m at level 100, k at level 200).
Notation "m ';;;' k" := (bind m (fun _ => k))
  (at level 100, k at level 200, right associativity).

(** Modelled from the spec: [log] of [./utils], a module that is not among
    the sources.  The specification says of a caught failure only that it
    is logged, so [log(msg, error)] adds one line to the trace and does
    nothing else; in particular it does not throw. *)
Definition log (msg : string) (error : JsError) : M unit :=
  fun w => (Ok tt, emit (Logged msg error) w).

(** [Date.now()] *)
Definition Date_now : M Z := fun w => (Ok (now w), w).

(** [crypto.randomBytes(16)] *)
Definition randomBytes16 : M (list byte) :=
  fun w => (Ok (entropy w (drawn w)), set_drawn S w).

(** The value of the identifier [prisma] where no declaration is in scope.
    The adapter's module imports [getPrismaClient] only and declares
    [prisma] in one place, the [tokens.json] block of [readJson]; everywhere
    else the identifier is looked up on the global object when the
    statement runs, and is a [ReferenceError] when the global object has no
    such property. *)
Definition free_prisma : M PrismaClient :=
  fun w => match prisma_global w with
           | Some c => (Ok c, w)
           | None => (Throw (ReferenceError "prisma"), w)
           end.

(** ** The record store, as the adapter uses it

    Modelled from the spec: the generated models of the Prisma client are
    no code of the repository.  The specification gives the record store
    three tables, each with find-by-key, upsert-by-key (create or update)
    and delete-by-key, the delete reporting a missing row as a failure of
    its own, which [delete] tells from the others by the code [P2025].  One
    request takes [latency] on the clock and either fails with the [outage]
    or is served from the tables. *)
Definition request (req : Request) (t : Table) : M unit :=
  fun w =>
    let w' := emit (Queried req t) (set_now (fun n => n + latency (db w)) w) in
    match outage (db w) with
    | Some e => (Throw e, w')
    | None => (Ok tt, w')
    end.

Definition token_findUnique (c : PrismaClient) (k : string * string * string)
    : M (option TokenRow) :=
  request FindUnique TokenTable;;;
  fun w => (Ok (mCPRemoteToken (db w) !! k), w).

Definition clientInfo_findUnique (c : PrismaClient) (k : string) : M (option ClientInfoRow) :=
  request FindUnique ClientInfoTable;;;
  fun w => (Ok (mCPRemoteClientInfo (db w) !! k), w).

Definition storage_findUnique (c : PrismaClient) (k : string * string * string)
    : M (option StorageRow) :=
  request FindUnique StorageTable;;;
  fun w => (Ok (mCPRemoteStorage (db w) !! k), w).

(** [upsert({ where, create, update })]: [create] when no row has the key,
    [update] applied to the row otherwise. *)
Definition token_upsert (c : PrismaClient) (k : string * string * string)
    (create : TokenRow) (update : TokenRow -> TokenRow) : M unit :=
  request Upsert TokenTable;;;
  fun w =>
    let row := match mCPRemoteToken (db w) !! k with
               | Some old => update old
               | None => create
               end in
    (Ok tt, set_db (set_tokens (insert k row)) w).

Definition clientInfo_upsert (c : PrismaClient) (k : string)
    (create : ClientInfoRow) (update : ClientInfoRow -> ClientInfoRow) : M unit :=
  request Upsert ClientInfoTable;;;
  fun w =>
    let row := match mCPRemoteClientInfo (db w) !! k with
               | Some old => update old
               | None => create
               end in
    (Ok tt, set_db (set_clientInfos (insert k row)) w).

Definition storage_upsert (c : PrismaClient) (k : string * string * string)
    (create : StorageRow) (update : StorageRow -> StorageRow) : M unit :=
  request Upsert StorageTable;;;
  fun w =>
    let row := match mCPRemoteStorage (db w) !! k with
               | Some old => update old
               | None => create
               end in
    (Ok tt, set_db (set_storages (insert k row)) w).

(** [delete({ where })] fails with code [P2025] when no row has the key. *)
Definition token_delete (c : PrismaClient) (k : string * string * string) : M unit :=
  request Delete TokenTable;;;
  fun w => match mCPRemoteToken (db w) !! k with
           | Some _ => (Ok tt, set_db (set_tokens (delete k)) w)
           | None => (Throw (PrismaError "P2025"), w)
           end.

Definition clientInfo_delete (c : PrismaClient) (k : string) : M unit :=
  request Delete ClientInfoTable;;;
  fun w => match mCPRemoteClientInfo (db w) !! k with
           | Some _ => (Ok tt, set_db (set_clientInfos (delete k)) w)
           | None => (Throw (PrismaError "P2025"), w)
           end.

Definition storage_delete (c : PrismaClient) (k : string * string * string) : M unit :=
  request Delete StorageTable;;;
  fun w => match mCPRemoteStorage (db w) !! k with
           | Some _ => (Ok tt, set_db (set_storages (delete k)) w)
           | None => (Throw (PrismaError "P2025"), w)
           end.

(** ** What the modules import: built-ins and the file-based implementation *)

(** [node:crypto] and [JSON], as far as the adapter calls them.  A digest is
    32 bytes and an IV 16; [gcm_encrypt key iv text] is the ciphertext of
    [update] and [final] and the tag of [getAuthTag]; [gcm_init key iv tag]
    is what [createDecipheriv] and [setAuthTag] throw, if they do;
    [gcm_decrypt] is [update] and [final('utf8')] on the bytes of the hex
    text, which throws when the tag does not authenticate ([update_hex] is
    the check [update] makes on the hex text before that).  [JSON_parse] throws a
    [SyntaxError] on text that is no JSON, and [JSON_stringify] returns
    [undefined] ([None]) for a value with no JSON text. *)
Record Builtins : Type := mkBuiltins {
  sha256 : string -> list byte;
  gcm_encrypt : list byte -> list byte -> string -> list byte * list byte;
  gcm_init : list byte -> list byte -> list byte -> option JsError;
  gcm_decrypt : list byte -> list byte -> list byte -> list byte -> Result string;
  JSON_parse : string -> Result JsValue;
  JSON_stringify : JsValue -> option string
}.

(** A zod-like schema: [schema.parseAsync(data)] returns the parsed value or
    throws. *)
Definition Schema : Type := JsValue -> Result JsValue.

(** The four functions imported from [./mcp-auth-config] under the names
    [fileReadJsonFile], ... : the module is not part of these sources, so its
    functions are parameters. *)
Record FileConfig : Type := mkFileConfig {
  fileReadJsonFile : string -> string -> Schema -> M JsValue;
  fileWriteJsonFile : string -> string -> JsValue -> M unit;
  fileReadTextFile : string -> string -> option string -> M string;
  fileWriteTextFile : string -> string -> string -> M unit
}.

(** ** The client module: [getPrismaClient] *)

Section PrismaClientModule.
Context (env : ProcessEnv).

Definition getPrismaClient : M PrismaClient :=
  fun w =>
    match prisma_module w with
    | Some c => (Ok c, w)
    | None =>
        let databaseUrl := env_DATABASE_URL env in
        if negb (str_truthy databaseUrl)
        then (Throw (Error "DATABASE_URL is required for database storage mode"), w)
        else
          let c := mkClient (str_or databaseUrl "") in
          (Ok c, set_prisma_module (Some c) w)
    end.
End PrismaClientModule.

(** The rest of the client module: [disconnectPrisma] and the handlers it
    registers with [process.on].  [$disconnect] is the client library's, so
    it is a parameter. *)
Section Lifecycle.
Context (disconnect : PrismaClient -> M unit).

Definition disconnectPrisma : M unit :=
  fun w =>
    match prisma_module w with
    | Some c =>
        (disconnect c;;;
         fun w' => (Ok tt, set_prisma_module None w')) w
    | None => (Ok tt, w)
    end.

(** How a handler ends: it returns to the event loop, or it has called
    [process.exit(code)]. *)
Inductive Outcome : Type :=
| Returned
| Exited (code : Z).

Definition on_beforeExit : M Outcome :=
  disconnectPrisma;;;
  ret Returned.

Definition on_SIGINT : M Outcome :=
  disconnectPrisma;;;
  ret (Exited 0).

Definition on_SIGTERM : M Outcome :=
  disconnectPrisma;;;
  ret (Exited 0).
End Lifecycle.

(** ** The cipher: [encrypt] and [decrypt] *)

Section Cipher.
Context (B : Builtins) (env : ProcessEnv).

Definition ENCRYPTION_KEY : string :=
  str_or (env_ENCRYPTION_KEY env) "default-dev-key-change-in-production".

(** [text] is [None] when the caller passes [undefined] (the result of
    [JSON.stringify] on a value with no JSON text): [cipher.update] then
    throws. *)
Definition encrypt (text : option string) (userId : string) : M string :=
  let key := sha256 B (ENCRYPTION_KEY +:+ userId) in
  let! iv := randomBytes16 in
  match text with
  | None => throw (TypeError "The data argument must be of type string. Received undefined")
  | Some text =>
      let '(encrypted, authTag) := gcm_encrypt B key iv text in
      ret (hex_encode iv +:+ ":" +:+ hex_encode authTag +:+ ":" +:+ hex_encode encrypted)
  end.

Definition decrypt (encryptedData : string) (userId : string) : Result string :=
  let parts := split colon encryptedData in
  match Buffer_from_hex (parts !! 0%nat) with
  | Throw e => Throw e
  | Ok iv =>
      match Buffer_from_hex (parts !! 1%nat) with
      | Throw e => Throw e
      | Ok authTag =>
          let encrypted := parts !! 2%nat in
          let key := sha256 B (ENCRYPTION_KEY +:+ userId) in
          match gcm_init B key iv authTag with
          | Some e => Throw e
          | None =>
              match update_hex encrypted with
              | Throw e => Throw e
              | Ok bytes => gcm_decrypt B key iv authTag bytes
              end
          end
      end
  end.
End Cipher.

(** ** The adapter: the cache, [class DatabaseStorage], [getStorage] and the
    exported functions *)

Definition CACHE_TTL : Z := 5000.

(** [this.getCacheKey(serverUrlHash, filename)] *)
Definition getCacheKey (self : DatabaseStorage) (serverUrlHash filename : string) : string :=
  userId self +:+ ":" +:+ connectionId self +:+ ":" +:+ serverUrlHash +:+ ":" +:+ filename.

(** [this.getFromCache(key)]: [null] is the answer for a miss. *)
Definition getFromCache (key : string) : M JsValue :=
  fun w =>
    match cache w !! key with
    | Some cached =>
        if (now w - timestamp cached <? CACHE_TTL)%Z
        then (Ok (data cached), w)
        else (Ok JNull, set_cache (delete key) w)
    | None => (Ok JNull, set_cache (delete key) w)
    end.

(** [this.setCache(key, data)] *)
Definition setCache (key : string) (d : JsValue) : M unit :=
  let! t := Date_now in
  fun w => (Ok tt, set_cache (insert key (mkEntry d t)) w).

(** A column that the schema requires: the client refuses a request that
    passes [undefined] for it, before any round trip. *)
Definition required (column : string) (v : option string) : M string :=
  match v with
  | Some s => ret s
  | None => throw (Error ("Argument " +:+ column +:+ " is missing"))
  end.

Definition is_tokens (filename : string) : bool := String.eqb filename "tokens.json".
Definition is_client_info (filename : string) : bool := String.eqb filename "client_info.json".

Section Adapter.
Context (B : Builtins) (env : ProcessEnv) (F : FileConfig).

Definition DB_MODE : bool :=
  match env_MCP_STORAGE_TYPE env with
  | Some s => String.eqb s "database"
  | None => false
  end.
Definition USER_ID : option string := env_MCP_USER_ID env.
Definition CONNECTION_ID : option string := env_MCP_CONNECTION_ID env.

(** The body of the [try] of [readJson].  The [const prisma] of the
    [tokens.json] block is in scope in that block only; after it the
    identifier is free. *)
Definition readJson_try (self : DatabaseStorage) (serverUrlHash filename cacheKey : string)
    : M JsValue :=
  if is_tokens filename then
    let! prisma := getPrismaClient env in
    let! record := token_findUnique prisma (userId self, connectionId self, serverUrlHash) in
    match record with
    | None => ret JUndefined
    | Some record =>
        let! decrypted := lift (decrypt B env (tokenData record) (userId self)) in
        let! d := lift (JSON_parse B decrypted) in
        setCache cacheKey d;;;
        ret d
    end
  else if is_client_info filename then
    let! prisma := free_prisma in
    let! record := clientInfo_findUnique prisma serverUrlHash in
    match record with
    | None => ret JUndefined
    | Some record =>
        let! d := lift (JSON_parse B (clientData record)) in
        setCache cacheKey d;;;
        ret d
    end
  else
    let! prisma := free_prisma in
    let! record := storage_findUnique prisma
                     (userId self, connectionId self, serverUrlHash +:+ "_" +:+ filename) in
    match record with
    | None => ret JUndefined
    | Some record =>
        let! d := lift (JSON_parse B (value record)) in
        setCache cacheKey d;;;
        ret d
    end.

(** The [try { ... } catch (error) { ... }] statement of [readJson]: what
    a read does once the cache gave no answer. *)
Definition readJson_fetch (self : DatabaseStorage) (serverUrlHash filename cacheKey : string)
    : M JsValue :=
  try_catch (readJson_try self serverUrlHash filename cacheKey)
    (fun error =>
       log ("Error reading " +:+ filename +:+ " from database:") error;;;
       ret JUndefined).

Definition readJson (self : DatabaseStorage) (serverUrlHash filename : string) : M JsValue :=
  let cacheKey := getCacheKey self serverUrlHash filename in
  let! cached := getFromCache cacheKey in
  if not_null cached then ret cached
  else readJson_fetch self serverUrlHash filename cacheKey.

(** The body of the [try] of [writeJson].  In a call
    [prisma.model.upsert({ ... })] the callee is evaluated before the
    argument. *)
Definition writeJson_try (self : DatabaseStorage) (serverUrlHash filename cacheKey : string)
    (d : JsValue) : M unit :=
  if is_tokens filename then
    let! encrypted := encrypt B env (JSON_stringify B d) (userId self) in
    let! prisma := free_prisma in
    let! token_type := lift (get_property d "token_type") in
    let type_tag := if truthy token_type then token_type else JString "oauth" in
    let! t := Date_now in
    token_upsert prisma (userId self, connectionId self, serverUrlHash)
      (mkTokenRow encrypted type_tag "" None)
      (fun old => mkTokenRow encrypted (tokenType old) (token_serverUrl old) (Some t));;;
    setCache cacheKey d
  else if is_client_info filename then
    let! prisma := free_prisma in
    let! text := required "clientData" (JSON_stringify B d) in
    let! t := Date_now in
    clientInfo_upsert prisma serverUrlHash
      (mkClientInfoRow text None)
      (fun old => mkClientInfoRow text (Some t));;;
    setCache cacheKey d
  else
    let! prisma := free_prisma in
    let! text := required "value" (JSON_stringify B d) in
    let! t := Date_now in
    storage_upsert prisma (userId self, connectionId self, serverUrlHash +:+ "_" +:+ filename)
      (mkStorageRow text None)
      (fun old => mkStorageRow text (Some t));;;
    setCache cacheKey d.

Definition writeJson (self : DatabaseStorage) (serverUrlHash filename : string) (d : JsValue)
    : M unit :=
  let cacheKey := getCacheKey self serverUrlHash filename in
  try_catch (writeJson_try self serverUrlHash filename cacheKey d)
    (fun error =>
       log ("Error writing " +:+ filename +:+ " to database:") error;;;
       throw error).

Definition readText (self : DatabaseStorage) (serverUrlHash filename : string) : M string :=
  let! d := readJson self serverUrlHash filename in
  if negb (truthy d) || typeof_not_string d
  then throw (Error ("Error reading " +:+ filename))
  else ret (as_string d).

Definition writeText (self : DatabaseStorage) (serverUrlHash filename text : string) : M unit :=
  writeJson self serverUrlHash filename (JString text).

(** The body of the [try] of [delete]. *)
Definition delete_try (self : DatabaseStorage) (serverUrlHash filename : string) : M unit :=
  if is_tokens filename then
    let! prisma := free_prisma in
    token_delete prisma (userId self, connectionId self, serverUrlHash)
  else if is_client_info filename then
    let! prisma := free_prisma in
    clientInfo_delete prisma serverUrlHash
  else
    let! prisma := free_prisma in
    storage_delete prisma (userId self, connectionId self, serverUrlHash +:+ "_" +:+ filename).

(** The method [delete]; the plain name is the map operation's. *)
Definition delete_ (self : DatabaseStorage) (serverUrlHash filename : string) : M unit :=
  let cacheKey := getCacheKey self serverUrlHash filename in
  (fun w => (Ok tt, set_cache (delete cacheKey) w));;;
  try_catch (delete_try self serverUrlHash filename)
    (fun error =>
       if code_differs error "P2025"
       then log ("Error deleting " +:+ filename +:+ ":") error
       else ret tt).

(** [getStorage()] *)
Definition getStorage : M (option DatabaseStorage) :=
  fun w =>
    if negb DB_MODE || negb (str_truthy USER_ID) || negb (str_truthy CONNECTION_ID)
    then (Ok None, w)
    else
      match storageInstance w with
      | Some s => (Ok (Some s), w)
      | None =>
          let s := mkStorage (next_oid w) (str_or USER_ID "") (str_or CONNECTION_ID "") in
          (Ok (Some s), set_storageInstance (Some s) (set_next_oid S w))
      end.

(** [await schema.parseAsync(data)] *)
Definition parseAsync (schema : Schema) (d : JsValue) : M JsValue :=
  fun w => (schema d, emit (Validated d) w).

Definition readJsonFile (serverUrlHash filename : string) (schema : Schema) : M JsValue :=
  let! storage := getStorage in
  match storage with
  | Some storage =>
      try_catch
        (let! d := readJson storage serverUrlHash filename in
         if negb (truthy d) then ret JUndefined
         else parseAsync schema d)
        (fun error =>
           log ("Database read error for " +:+ filename +:+ ":") error;;;
           ret JUndefined)
  | None => fileReadJsonFile F serverUrlHash filename schema
  end.

Definition writeJsonFile (serverUrlHash filename : string) (d : JsValue) : M unit :=
  let! storage := getStorage in
  match storage with
  | Some storage => writeJson storage serverUrlHash filename d
  | None => fileWriteJsonFile F serverUrlHash filename d
  end.

Definition readTextFile (serverUrlHash filename : string) (errorMessage : option string)
    : M string :=
  let! storage := getStorage in
  match storage with
  | Some storage =>
      try_catch (readText storage serverUrlHash filename)
        (fun error => throw (Error (str_or errorMessage ("Error reading " +:+ filename))))
  | None => fileReadTextFile F serverUrlHash filename errorMessage
  end.

Definition writeTextFile (serverUrlHash filename text : string) : M unit :=
  let! storage := getStorage in
  match storage with
  | Some storage => writeText storage serverUrlHash filename text
  | None => fileWriteTextFile F serverUrlHash filename text
  end.
End Adapter.

(** ** Concrete inputs for the examples

    The theorems below hold for every [Builtins] and every [FileConfig];
    the examples run the adapter, which needs one of each.  [Sample] has
    stand-ins: a cipher that copies the text and tags it with bytes of the
    key and the IV, a [JSON] for literals and plain strings, and a file
    implementation with no files. *)
Module Sample.

Definition sha256 (s : string) : list byte := list_byte_of_string s.

Definition tag_of (key iv : list byte) : list byte := take 16 (rev key ++ iv).

Definition gcm_encrypt (key iv : list byte) (text : string) : list byte * list byte :=
  (list_byte_of_string text, tag_of key iv).

Definition gcm_init (key iv authTag : list byte) : option JsError :=
  match iv with
  | [] => Some (CryptoError "Invalid initialization vector")
  | _ => None
  end.

Definition gcm_decrypt (key iv authTag encrypted : list byte) : Result string :=
  if String.eqb (hex_encode authTag) (hex_encode (tag_of key iv))
  then Ok (string_of_list_byte encrypted)
  else Throw (CryptoError "Unsupported state or unable to authenticate data").

Definition dquote : ascii := ascii_of_nat 34.

Definition quoted (s : string) : string :=
  String dquote (s +:+ String dquote EmptyString).

(** The text between the quotes of a string literal that has no escape
    and no quote inside. *)
Fixpoint unquote (s : string) : option string :=
  match s with
  | EmptyString => None
  | String c EmptyString => if Ascii.eqb c dquote then Some EmptyString else None
  | String c rest =>
      if Ascii.eqb c dquote || Ascii.eqb c "\"%char then None
      else String c <$> unquote rest
  end.

(** [JSON.parse] on the literals and on plain string literals. *)
Definition JSON_parse (text : string) : Result JsValue :=
  if String.eqb text "null" then Ok JNull
  else if String.eqb text "true" then Ok (JBool true)
  else if String.eqb text "false" then Ok (JBool false)
  else match text with
       | String c rest =>
           if Ascii.eqb c dquote
           then match unquote rest with
                | Some s => Ok (JString s)
                | None => Throw (SyntaxError "Unexpected token")
                end
           else Throw (SyntaxError "Unexpected token")
       | EmptyString => Throw (SyntaxError "Unexpected end of JSON input")
       end.

(** The JSON text of a value whose strings need no escape. *)
Fixpoint print (v : JsValue) : string :=
  match v with
  | JUndefined | JNull => "null"
  | JBool true => "true"
  | JBool false => "false"
  | JNumber n => pretty n
  | JString s => quoted s
  | JArray items =>
      "[" +:+ (fix go (l : list JsValue) : string :=
                 match l with
                 | [] => ""
                 | [x] => print x
                 | x :: r => print x +:+ "," +:+ go r
                 end) items +:+ "]"
  | JObject fields =>
      "{" +:+ (fix go (l : list (string * JsValue)) : string :=
                 match l with
                 | [] => ""
                 | [(k, x)] => quoted k +:+ ":" +:+ print x
                 | (k, x) :: r => quoted k +:+ ":" +:+ print x +:+ "," +:+ go r
                 end) fields +:+ "}"
  end.

Definition JSON_stringify (v : JsValue) : option string :=
  match v with
  | JUndefined => None
  | _ => Some (print v)
  end.

Definition builtins : Builtins :=
  mkBuiltins sha256 gcm_encrypt gcm_init gcm_decrypt JSON_parse JSON_stringify.

Definition no_files : FileConfig :=
  mkFileConfig
    (fun _ _ _ => ret JUndefined)
    (fun _ _ _ => ret tt)
    (fun _ filename errorMessage =>
       throw (Error (str_or errorMessage ("Error reading " +:+ filename))))
    (fun _ _ _ => ret tt).

(** Durable mode for tenant [u1], connection [c1]. *)
Definition env : ProcessEnv :=
  mkEnv None (Some "database") (Some "u1") (Some "c1") (Some "postgresql://db/mcp").

(** The same process without the storage-mode flag. *)
Definition file_env : ProcessEnv :=
  mkEnv None None (Some "u1") (Some "c1") None.

Definition empty_db : Database := mkDb ∅ ∅ ∅ None 3.

(** A process that has just loaded the modules at time [t]: nothing
    cached, no instance, no client, and no global named [prisma]. *)
Definition start (t : Z) : World :=
  mkWorld t (fun _ => repeat Byte.x2a 16) 0 ∅ None None None empty_db 0 [].

Definition storage : DatabaseStorage := mkStorage 0 "u1" "c1".

Definition tokens : JsValue :=
  JObject [("access_token", JString "t"); ("token_type", JString "bearer")].

(** The token row of [storage] for server [abc] whose [tokenData] is the
    sample cipher's text for the JSON text [null]. *)
Definition null_token_row : TokenRow :=
  mkTokenRow "2a2a2a2a2a2a2a2a2a2a2a2a2a2a2a2a:31756e6f69746375646f72702d6e692d:6e756c6c"
             (JString "oauth") "" None.

Definition with_null_token (w : World) : World :=
  set_db (set_tokens (insert ("u1", "c1", "abc") null_token_row)) w.

(** [start t] with one entry in the cache, stamped [stamp]. *)
Definition cached_at (stamp t : Z) (filename : string) (d : JsValue) : World :=
  set_cache (insert (getCacheKey storage "abc" filename) (mkEntry d stamp)) (start t).

(** The same row holding the JSON text of the empty string (two quotes). *)
Definition empty_string_row : TokenRow :=
  mkTokenRow "2a2a2a2a2a2a2a2a2a2a2a2a2a2a2a2a:31756e6f69746375646f72702d6e692d:2222"
             (JString "oauth") "" None.

Definition with_empty_string_token (w : World) : World :=
  set_db (set_tokens (insert ("u1", "c1", "abc") empty_string_row)) w.

Definition with_global_prisma (w : World) : World :=
  set_prisma_global (Some (mkClient "postgresql://db/mcp")) w.

(** The record store failing every request with [e]. *)
Definition down (e : JsError) (w : World) : World :=
  set_db (set_outage (Some e)) w.

End Sample.


(** ** Vocabulary of the statements *)

(** What the adapter needs of the AEAD to read back what it wrote: a tag
    and an IV that [encrypt] produced are accepted, and the text comes
    back. *)
Definition gcm_reads_back (B : Builtins) : Prop :=
  forall key iv text,
    length iv = 16%nat ->
    gcm_init B key iv (snd (gcm_encrypt B key iv text)) = None /\
    gcm_decrypt B key iv (snd (gcm_encrypt B key iv text)) (fst (gcm_encrypt B key iv text))
    = Ok text.


(** The answer of the AEAD for a key, an IV, a tag and the bytes of a
    ciphertext: what [createDecipheriv] and [setAuthTag] throw, if they do,
    and otherwise what [update] and [final] give. *)
Definition gcm_open (B : Builtins) (key iv authTag encrypted : list byte) : Result string :=
  match gcm_init B key iv authTag with
  | Some e => Throw e
  | None => gcm_decrypt B key iv authTag encrypted
  end.

(** The table a filename is kept in. *)
Definition table_of (filename : string) : Table :=
  if is_tokens filename then TokenTable
  else if is_client_info filename then ClientInfoTable
  else StorageTable.

(** The store without the row of an address. *)
Definition without_record (self : DatabaseStorage) (serverUrlHash filename : string)
    (d : Database) : Database :=
  if is_tokens filename then
    set_tokens (delete (userId self, connectionId self, serverUrlHash)) d
  else if is_client_info filename then
    set_clientInfos (delete serverUrlHash) d
  else
    set_storages (delete (userId self, connectionId self, serverUrlHash +:+ "_" +:+ filename)) d.

(** Whether the store has a row for an address. *)
Definition has_record (self : DatabaseStorage) (serverUrlHash filename : string)
    (d : Database) : bool :=
  if is_tokens filename then
    bool_decide (is_Some (mCPRemoteToken d !! (userId self, connectionId self, serverUrlHash)))
  else if is_client_info filename then
    bool_decide (is_Some (mCPRemoteClientInfo d !! serverUrlHash))
  else
    bool_decide (is_Some (mCPRemoteStorage d !!
                   (userId self, connectionId self, serverUrlHash +:+ "_" +:+ filename))).

(** The world in which a request has just been sent. *)
Definition sent (req : Request) (t : Table) (w : World) : World :=
  emit (Queried req t) (set_now (fun n => n + latency (db w)) w).

(** A computation that leaves the module's [storageInstance] and the
    allocation counter alone. *)
Definition keeps_instance {A} (m : M A) : Prop :=
  forall w, storageInstance (snd (m w)) = storageInstance w /\
            next_oid (snd (m w)) = next_oid w.

(** A string with no colon in it. *)
Fixpoint colon_free (s : string) : bool :=
  match s with
  | EmptyString => true
  | String c rest => negb (Ascii.eqb c colon) && colon_free rest
  end.

(** The text column of the row of an address: [tokenData], [clientData] or
    [value], by the table the filename is kept in. *)
Definition stored_text (self : DatabaseStorage) (serverUrlHash filename : string)
    (d : Database) : option string :=
  if is_tokens filename then
    tokenData <$> mCPRemoteToken d !! (userId self, connectionId self, serverUrlHash)
  else if is_client_info filename then
    clientData <$> mCPRemoteClientInfo d !! serverUrlHash
  else
    value <$> mCPRemoteStorage d !!
      (userId self, connectionId self, serverUrlHash +:+ "_" +:+ filename).

(** A computation that takes the part [proj] of the world only to a part
    related to it by [R]. *)
Definition preserves {S A} (proj : World -> S) (R : S -> S -> Prop) (m : M A) : Prop :=
  forall w, R (proj w) (proj (snd (m w))).

(** Two caches with the same entries, but perhaps under [key]. *)
Definition cache_agree_off (key : string) (c c' : gmap string CacheEntry) : Prop :=
  forall k, k <> key -> c' !! k = c !! k.

(** Two stores with the same rows, but perhaps the row of the address, and
    the same [outage] and [latency]. *)
Definition db_agree_off (self : DatabaseStorage) (serverUrlHash filename : string)
    (d d' : Database) : Prop :=
  outage d' = outage d /\ latency d' = latency d /\
  (forall k, (table_of filename = TokenTable ->
              k <> (userId self, connectionId self, serverUrlHash)) ->
             mCPRemoteToken d' !! k = mCPRemoteToken d !! k) /\
  (forall k, (table_of filename = ClientInfoTable -> k <> serverUrlHash) ->
             mCPRemoteClientInfo d' !! k = mCPRemoteClientInfo d !! k) /\
  (forall k, (table_of filename = StorageTable ->
              k <> (userId self, connectionId self, serverUrlHash +:+ "_" +:+ filename)) ->
             mCPRemoteStorage d' !! k = mCPRemoteStorage d !! k).

(** Unfolds the plumbing of a computation so that it runs on a world. *)
Ltac run :=
  unfold try_catch, bind, ret, throw, lift, log, Date_now, free_prisma, required in *;
  cbn beta iota in *.


(** * Properties *)

(** ** The read cache *)

Lemma getFromCache_fresh (key : string) (w : World) (cached : CacheEntry) :
  cache w !! key = Some cached ->
  now w - timestamp cached < CACHE_TTL ->
  getFromCache key w = (Ok (data cached), w).
Proof.
  intros Hget Hfresh. unfold getFromCache. rewrite Hget.
  destruct (Z.ltb_spec (now w - timestamp cached) CACHE_TTL) as [_ | Hge]; [reflexivity | lia].
Qed.

Lemma getFromCache_expired (key : string) (w : World) (cached : CacheEntry) :
  cache w !! key = Some cached ->
  CACHE_TTL <= now w - timestamp cached ->
  getFromCache key w = (Ok JNull, set_cache (delete key) w).
Proof.
  intros Hget Hold. unfold getFromCache. rewrite Hget.
  destruct (Z.ltb_spec (now w - timestamp cached) CACHE_TTL) as [Hlt | _]; [lia | reflexivity].
Qed.

Lemma getFromCache_absent (key : string) (w : World) :
  cache w !! key = None ->
  getFromCache key w = (Ok JNull, set_cache (delete key) w).
Proof. intros Hget. unfold getFromCache. now rewrite Hget. Qed.

(** Whatever the cache holds, a lookup that answers [null] leaves no entry
    under the key unless the entry is fresh and holds [null] itself. *)
Lemma getFromCache_null_inv (key : string) (w w' : World) :
  getFromCache key w = (Ok JNull, w') ->
  w' = set_cache (delete key) w \/
  (w' = w /\ exists cached, cache w !! key = Some cached /\ data cached = JNull /\
                            now w - timestamp cached < CACHE_TTL).
Proof.
  unfold getFromCache. destruct (cache w !! key) as [cached |] eqn:Hget.
  - destruct (Z.ltb_spec (now w - timestamp cached) CACHE_TTL) as [Hlt | Hge].
    + intros [= Hd <-]. right. split; [reflexivity |]. exists cached. auto.
    + intros [= <-]. now left.
  - intros [= <-]. now left.
Qed.

Lemma getFromCache_total (key : string) (w : World) :
  exists v w', getFromCache key w = (Ok v, w') /\ trace w' = trace w /\ db w' = db w.
Proof.
  unfold getFromCache. destruct (cache w !! key) as [cached |].
  - destruct (now w - timestamp cached <? CACHE_TTL); eauto.
  - eauto.
Qed.

Section CacheTTL.
Context (B : Builtins) (env : ProcessEnv).

Lemma readJson_hit self serverUrlHash filename w cached :
  cache w !! getCacheKey self serverUrlHash filename = Some cached ->
  now w - timestamp cached < CACHE_TTL ->
  data cached <> JNull ->
  readJson B env self serverUrlHash filename w = (Ok (data cached), w).
Proof.
  intros Hget Hfresh Hnn. unfold readJson, bind.
  rewrite (getFromCache_fresh _ _ _ Hget Hfresh).
  destruct (data cached); try reflexivity. congruence.
Qed.

Lemma readJson_hit_null self serverUrlHash filename w cached :
  cache w !! getCacheKey self serverUrlHash filename = Some cached ->
  now w - timestamp cached < CACHE_TTL ->
  data cached = JNull ->
  readJson B env self serverUrlHash filename w =
  readJson_fetch B env self serverUrlHash filename (getCacheKey self serverUrlHash filename) w.
Proof.
  intros Hget Hfresh Hnull. unfold readJson, bind.
  rewrite (getFromCache_fresh _ _ _ Hget Hfresh), Hnull. reflexivity.
Qed.

Lemma readJson_expired self serverUrlHash filename w cached :
  cache w !! getCacheKey self serverUrlHash filename = Some cached ->
  CACHE_TTL <= now w - timestamp cached ->
  readJson B env self serverUrlHash filename w =
  readJson_fetch B env self serverUrlHash filename (getCacheKey self serverUrlHash filename)
    (set_cache (delete (getCacheKey self serverUrlHash filename)) w).
Proof.
  intros Hget Hold. unfold readJson, bind.
  rewrite (getFromCache_expired _ _ _ Hget Hold). reflexivity.
Qed.

Lemma readJson_absent self serverUrlHash filename w :
  cache w !! getCacheKey self serverUrlHash filename = None ->
  readJson B env self serverUrlHash filename w =
  readJson_fetch B env self serverUrlHash filename (getCacheKey self serverUrlHash filename)
    (set_cache (delete (getCacheKey self serverUrlHash filename)) w).
Proof.
  intros Hget. unfold readJson, bind.
  rewrite (getFromCache_absent _ _ Hget). reflexivity.
Qed.
End CacheTTL.

(** C6, as the code has it.  An entry cached at [timestamp cached] and
    looked up at [now w]: when less than [CACHE_TTL] = 5000 ms have passed,
    [getFromCache] returns the cached value and changes nothing, and
    [readJson] returns it with no request to the record store provided the
    value is not [null]; a cached [null] is read as a miss, and [readJson]
    goes on to fetch with the entry still in place.  When 5000 ms or more
    have passed, [getFromCache] deletes the entry and answers [null], and
    [readJson] is the fetch from the world without the entry. *)
Theorem cache_ttl_boundary (B : Builtins) (env : ProcessEnv) (self : DatabaseStorage)
    (serverUrlHash filename : string) (w : World) (cached : CacheEntry) :
  let key := getCacheKey self serverUrlHash filename in
  cache w !! key = Some cached ->
  CACHE_TTL = 5000 /\
  (now w - timestamp cached < CACHE_TTL ->
     getFromCache key w = (Ok (data cached), w) /\
     (data cached <> JNull ->
        readJson B env self serverUrlHash filename w = (Ok (data cached), w)) /\
     (data cached = JNull ->
        readJson B env self serverUrlHash filename w =
        readJson_fetch B env self serverUrlHash filename key w)) /\
  (CACHE_TTL <= now w - timestamp cached ->
     getFromCache key w = (Ok JNull, set_cache (delete key) w) /\
     cache (set_cache (delete key) w) !! key = None /\
     readJson B env self serverUrlHash filename w =
     readJson_fetch B env self serverUrlHash filename key (set_cache (delete key) w)).
Proof.
  intros key Hget. split; [reflexivity |]. split.
  - intros Hfresh. split; [now apply getFromCache_fresh |]. split.
    + intros Hnn. now apply readJson_hit.
    + intros Hnull. now apply (readJson_hit_null B env self _ _ w cached).
  - intros Hold. split; [now apply (getFromCache_expired key w cached) |]. split.
    + cbn. apply lookup_delete_eq.
    + now apply (readJson_expired B env self _ _ w cached).
Qed.

Lemma cache_ttl_boundary_witness :
  readJson Sample.builtins Sample.env Sample.storage "abc" "tokens.json"
    (Sample.cached_at 0 4999 "tokens.json" Sample.tokens)
  = (Ok Sample.tokens, Sample.cached_at 0 4999 "tokens.json" Sample.tokens) /\
  readJson Sample.builtins Sample.env Sample.storage "abc" "tokens.json"
    (Sample.cached_at 0 5000 "tokens.json" Sample.tokens)
  = readJson_fetch Sample.builtins Sample.env Sample.storage "abc" "tokens.json"
      "u1:c1:abc:tokens.json" (Sample.start 5000).
Proof.
  split.
  - assert (Hget : cache (Sample.cached_at 0 4999 "tokens.json" Sample.tokens)
                     !! getCacheKey Sample.storage "abc" "tokens.json"
                   = Some (mkEntry Sample.tokens 0)) by (vm_compute; reflexivity).
    destruct (cache_ttl_boundary Sample.builtins Sample.env Sample.storage
                "abc" "tokens.json" _ _ Hget) as (_ & Hfresh & _).
    destruct Hfresh as (_ & Hhit & _); [vm_compute; reflexivity |].
    apply Hhit. discriminate.
  - assert (Hget : cache (Sample.cached_at 0 5000 "tokens.json" Sample.tokens)
                     !! getCacheKey Sample.storage "abc" "tokens.json"
                   = Some (mkEntry Sample.tokens 0)) by (vm_compute; reflexivity).
    destruct (cache_ttl_boundary Sample.builtins Sample.env Sample.storage
                "abc" "tokens.json" _ _ Hget) as (_ & _ & Hold).
    destruct Hold as (_ & _ & Hfetch); [vm_compute; discriminate |].
    rewrite Hfetch. reflexivity.
Defined.

(** The sample row decrypts to the JSON text [null]. *)
Example null_token_row_decrypts :
  decrypt Sample.builtins Sample.env (tokenData Sample.null_token_row) "u1" = Ok "null".
Proof. vm_compute. reflexivity. Qed.

(** C6 as stated fails on a cached [null]: two reads of a token whose JSON
    is [null], one right after the other.  The first caches [null]; the
    second, with the entry fresh, asks the record store again. *)
Lemma cached_null_is_fetched_again :
  let w0 := Sample.with_null_token (Sample.start 0) in
  let r1 := readJson Sample.builtins Sample.env Sample.storage "abc" "tokens.json" w0 in
  let r2 := readJson Sample.builtins Sample.env Sample.storage "abc" "tokens.json" (snd r1) in
  fst r1 = Ok JNull /\
  cache (snd r1) !! "u1:c1:abc:tokens.json" = Some (mkEntry JNull 3) /\
  now (snd r1) - 3 < CACHE_TTL /\
  fst r2 = Ok JNull /\
  trace (snd r1) = [Queried FindUnique TokenTable] /\
  trace (snd r2) = [Queried FindUnique TokenTable; Queried FindUnique TokenTable].
Proof. vm_compute. repeat split; reflexivity. Qed.


(** ** The cipher's text format *)

Lemma split_nonempty (sep : ascii) (s : string) : split sep s <> [].
Proof.
  destruct s as [| c rest]; cbn; [discriminate |].
  destruct (Ascii.eqb c sep); [discriminate |].
  destruct (split sep rest); discriminate.
Qed.

Lemma split_append (sep : ascii) (a b : string) :
  split sep (a +:+ String sep b) = (split sep a ++ split sep b)%list.
Proof.
  induction a as [| c a IH]; simpl.
  - now rewrite Ascii.eqb_refl.
  - destruct (Ascii.eqb c sep); [now rewrite IH |].
    rewrite IH. pose proof (split_nonempty sep a) as Hne.
    destruct (split sep a); [congruence | reflexivity].
Qed.

Lemma hex_byte_roundtrip (b : byte) (rest : string) :
  hex_decode (String (hex_digit (Byte.to_N b / 16))
                (String (hex_digit (Byte.to_N b mod 16)) rest))
  = b :: hex_decode rest.
Proof. destruct b; reflexivity. Qed.

Lemma hex_decode_encode (bs : list byte) : hex_decode (hex_encode bs) = bs.
Proof.
  induction bs as [| b bs IH]; [reflexivity |].
  cbn [hex_encode]. rewrite hex_byte_roundtrip. now rewrite IH.
Qed.

(** A hex text that [toString('hex')] made has an even number of digits. *)
Lemma hex_encode_even (bs : list byte) : Nat.odd (String.length (hex_encode bs)) = false.
Proof.
  induction bs as [| b bs IH]; [reflexivity |].
  cbn [hex_encode String.length]. now rewrite Nat.odd_succ_succ.
Qed.

Lemma update_hex_encode (bs : list byte) : update_hex (Some (hex_encode bs)) = Ok bs.
Proof. unfold update_hex. now rewrite hex_encode_even, hex_decode_encode. Qed.

Lemma update_hex_even (s : string) :
  Nat.odd (String.length s) = false -> update_hex (Some s) = Ok (hex_decode s).
Proof. unfold update_hex. now intros ->. Qed.


Lemma hex_byte_no_colon (b : byte) :
  Ascii.eqb (hex_digit (Byte.to_N b / 16)) colon = false /\
  Ascii.eqb (hex_digit (Byte.to_N b mod 16)) colon = false.
Proof. destruct b; split; reflexivity. Qed.

(** A hex text is one field. *)
Lemma split_hex_encode (bs : list byte) : split colon (hex_encode bs) = [hex_encode bs].
Proof.
  induction bs as [| b bs IH]; [reflexivity |].
  cbn [hex_encode split]. destruct (hex_byte_no_colon b) as [-> ->].
  now rewrite IH.
Qed.

Lemma split_serialized (iv authTag encrypted : list byte) :
  split colon (hex_encode iv +:+ ":" +:+ hex_encode authTag +:+ ":" +:+ hex_encode encrypted)
  = [hex_encode iv; hex_encode authTag; hex_encode encrypted].
Proof.
  change (":" +:+ hex_encode authTag +:+ ":" +:+ hex_encode encrypted)
    with (String colon (hex_encode authTag +:+ String colon (hex_encode encrypted))).
  rewrite !split_append, !split_hex_encode. reflexivity.
Qed.

Section CipherFormat.
Context (B : Builtins) (env : ProcessEnv).

(** [decrypt] reads [parts[0]], [parts[1]] and [parts[2]] and nothing else. *)
Lemma decrypt_first_three (s s' userId : string) :
  take 3 (split colon s) = take 3 (split colon s') ->
  decrypt B env s userId = decrypt B env s' userId.
Proof.
  intros Htake. unfold decrypt.
  assert (Hlk : forall i, (i < 3)%nat -> split colon s !! i = split colon s' !! i).
  { intros i Hi. rewrite <- (lookup_take_lt (split colon s) 3 i Hi).
    rewrite <- (lookup_take_lt (split colon s') 3 i Hi). now rewrite Htake. }
  rewrite (Hlk 0%nat), (Hlk 1%nat), (Hlk 2%nat) by lia. reflexivity.
Qed.

Lemma decrypt_extra_field (s extra userId : string) :
  (3 <= length (split colon s))%nat ->
  decrypt B env (s +:+ ":" +:+ extra) userId = decrypt B env s userId.
Proof.
  intros Hlen. apply decrypt_first_three.
  change (":" +:+ extra) with (String colon extra).
  rewrite split_append. rewrite take_app_le by exact Hlen. reflexivity.
Qed.

Lemma decrypt_few_fields (s userId : string) :
  (length (split colon s) < 3)%nat ->
  exists e, decrypt B env s userId = Throw e.
Proof.
  intros Hlen. unfold decrypt.
  pose proof (split_nonempty colon s) as Hne.
  destruct (split colon s) as [| f0 [| f1 [| f2 rest]]]; cbn in *; try congruence; try lia.
  - eauto.
  - destruct (gcm_init B _ _ _); eauto.
Qed.

Lemma encrypt_then_decrypt (text userId : string) (w : World) :
  gcm_reads_back B ->
  length (entropy w (drawn w)) = 16%nat ->
  exists c, encrypt B env (Some text) userId w = (Ok c, set_drawn S w) /\
            length (split colon c) = 3%nat /\
            decrypt B env c userId = Ok text.
Proof.
  intros Hgcm Hiv. unfold encrypt, bind, randomBytes16, ret.
  specialize (Hgcm (sha256 B (ENCRYPTION_KEY env +:+ userId)) (entropy w (drawn w)) text Hiv).
  destruct (gcm_encrypt B _ _ text) as [encrypted authTag] eqn:Henc. cbn in Hgcm.
  destruct Hgcm as [Hinit Hdec].
  eexists. split; [reflexivity |]. rewrite split_serialized. split; [reflexivity |].
  unfold decrypt. rewrite split_serialized. cbn [lookup list_lookup Buffer_from_hex].
  rewrite !hex_decode_encode, Hinit, update_hex_encode. exact Hdec.
Qed.

(** X1.  What [encrypt] returns has three fields, and [decrypt] under the
    same tenant gives the text back, for an AEAD that reads back what it
    wrote. *)
Lemma decrypt_encrypt (text userId : string) (w : World) :
  gcm_reads_back B ->
  length (entropy w (drawn w)) = 16%nat ->
  exists c, encrypt B env (Some text) userId w = (Ok c, set_drawn S w) /\
            length (split colon c) = 3%nat /\
            decrypt B env c userId = Ok text.
Proof. exact (encrypt_then_decrypt text userId w). Qed.

(** A text that [encrypt] produced still decrypts with a field appended. *)
Lemma decrypt_encrypt_extra (text userId extra : string) (w : World) :
  gcm_reads_back B ->
  length (entropy w (drawn w)) = 16%nat ->
  exists c, encrypt B env (Some text) userId w = (Ok c, set_drawn S w) /\
            length (split colon (c +:+ ":" +:+ extra)) <> 3%nat /\
            decrypt B env (c +:+ ":" +:+ extra) userId = Ok text.
Proof.
  intros Hgcm Hiv.
  destruct (encrypt_then_decrypt text userId w Hgcm Hiv) as (c & Henc & Hlen & Hdec).
  exists c. split; [exact Henc |]. split.
  - change (":" +:+ extra) with (String colon extra).
    rewrite split_append, length_app, Hlen.
    pose proof (split_nonempty colon extra) as Hne.
    destruct (split colon extra); [congruence | cbn; lia].
  - rewrite decrypt_extra_field by lia. exact Hdec.
Qed.

(** With three fields or more, [decrypt] is the answer of the AEAD on the
    bytes the first three decode to, under the key of the tenant; a third
    field of odd length is refused by [update] once the decipher is set
    up. *)
Lemma decrypt_three_fields (g0 g1 g2 : string) (rest : list string) (s userId : string) :
  split colon s = g0 :: g1 :: g2 :: rest ->
  decrypt B env s userId
  = match gcm_init B (sha256 B (ENCRYPTION_KEY env +:+ userId)) (hex_decode g0) (hex_decode g1) with
    | Some e => Throw e
    | None =>
        match update_hex (Some g2) with
        | Throw e => Throw e
        | Ok bytes =>
            gcm_decrypt B (sha256 B (ENCRYPTION_KEY env +:+ userId))
              (hex_decode g0) (hex_decode g1) bytes
        end
    end.
Proof. intros Hs. unfold decrypt. rewrite Hs. reflexivity. Qed.

Lemma decrypt_even (g0 g1 g2 : string) (rest : list string) (s userId : string) :
  split colon s = g0 :: g1 :: g2 :: rest ->
  Nat.odd (String.length g2) = false ->
  decrypt B env s userId
  = gcm_open B (sha256 B (ENCRYPTION_KEY env +:+ userId))
      (hex_decode g0) (hex_decode g1) (hex_decode g2).
Proof.
  intros Hs Heven. rewrite (decrypt_three_fields g0 g1 g2 rest s userId Hs).
  rewrite update_hex_even by exact Heven. reflexivity.
Qed.


(** [decrypt] sees the three fields through the bytes they decode to, once
    the third has an even length: such texts decrypt alike when their
    fields decode to the same bytes. *)
Lemma decrypt_reads_bytes (f0 f1 f2 g0 g1 g2 : string) (rest rest' : list string)
    (s s' userId : string) :
  split colon s = f0 :: f1 :: f2 :: rest ->
  split colon s' = g0 :: g1 :: g2 :: rest' ->
  hex_decode f0 = hex_decode g0 ->
  hex_decode f1 = hex_decode g1 ->
  hex_decode f2 = hex_decode g2 ->
  Nat.odd (String.length f2) = false ->
  Nat.odd (String.length g2) = false ->
  decrypt B env s userId = decrypt B env s' userId.
Proof.
  intros Hs Hs' H0 H1 H2 Hf Hg.
  rewrite (decrypt_even f0 f1 f2 rest s userId Hs Hf).
  rewrite (decrypt_even g0 g1 g2 rest' s' userId Hs' Hg).
  now rewrite H0, H1, H2.
Qed.
End CipherFormat.

(** Hex digits are read in either case. *)
Example hex_decode_upper_case : hex_decode "2A2D" = hex_decode "2a2d".
Proof. reflexivity. Qed.

(** C8, as the code has it.  [decrypt] never counts the fields.  With fewer
    than three it throws (a [TypeError] for the missing field, or what the
    decipher throws on the IV and tag it was given); with three or more, the
    fields past the third are not read, so a text with one more field
    decrypts exactly as the text without it. *)
Theorem decrypt_field_count (B : Builtins) (env : ProcessEnv) (encryptedData userId : string) :
  ((length (split colon encryptedData) < 3)%nat ->
     exists e, decrypt B env encryptedData userId = Throw e) /\
  ((3 <= length (split colon encryptedData))%nat ->
     forall extra,
       (3 < length (split colon (encryptedData +:+ ":" +:+ extra)))%nat /\
       decrypt B env (encryptedData +:+ ":" +:+ extra) userId
       = decrypt B env encryptedData userId).
Proof.
  split.
  - apply decrypt_few_fields.
  - intros Hlen extra. split; [| now apply decrypt_extra_field].
    change (":" +:+ extra) with (String colon extra).
    rewrite split_append, length_app.
    pose proof (split_nonempty colon extra) as Hne.
    destruct (split colon extra); [congruence | cbn; lia].
Qed.

(** C8 as stated fails on four fields: the sample cipher's text for [t]
    under tenant [u1], with a fourth field appended, decrypts to [t]. *)
Lemma decrypt_accepts_a_fourth_field :
  length (split colon
    "2a2a2a2a2a2a2a2a2a2a2a2a2a2a2a2a:31756e6f69746375646f72702d6e692d:74:00") = 4%nat /\
  decrypt Sample.builtins Sample.env
    "2a2a2a2a2a2a2a2a2a2a2a2a2a2a2a2a:31756e6f69746375646f72702d6e692d:74:00" "u1" = Ok "t".
Proof. split; vm_compute; reflexivity. Qed.

(** *** What [decrypt] detects *)





Section Detection.
Context (B : Builtins) (env : ProcessEnv).



End Detection.



(** A third field of odd length is refused, whatever its digits. *)
Example decrypt_refuses_an_odd_length :
  decrypt Sample.builtins Sample.env
    "2a2a2a2a2a2a2a2a2a2a2a2a2a2a2a2a:31756e6f69746375646f72702d6e692d:747" "u1"
  = Throw (TypeError "The argument 'encoding' is invalid for data of length 3. Received 'hex'").
Proof. vm_compute. reflexivity. Qed.

(** The sample cipher tells tenant [u2] from tenant [u1]. *)
Example decrypt_under_another_tenant :
  decrypt Sample.builtins Sample.env
    "2a2a2a2a2a2a2a2a2a2a2a2a2a2a2a2a:31756e6f69746375646f72702d6e692d:74" "u2"
  = Throw (CryptoError "Unsupported state or unable to authenticate data").
Proof. vm_compute. reflexivity. Qed.


(** ** The identifier [prisma] *)

Section FreeIdentifier.
Context (B : Builtins) (env : ProcessEnv).

Lemma encrypt_draws (text : option string) (userId : string) (w : World) :
  exists r, encrypt B env text userId w = (r, set_drawn S w) /\
            (text = None -> exists e, r = Throw e) /\
            (text <> None -> exists c, r = Ok c).
Proof.
  unfold encrypt, randomBytes16. run. destruct text as [text |].
  - destruct (gcm_encrypt B _ _ text) as [encrypted authTag]. eexists. split; [reflexivity |].
    split; [discriminate | eauto].
  - eexists. split; [reflexivity |]. split; [eauto | congruence].
Qed.

Lemma writeJson_unbound self serverUrlHash filename d w :
  prisma_global w = None ->
  exists e w',
    writeJson B env self serverUrlHash filename d w = (Throw e, w') /\
    (e = ReferenceError "prisma" \/ (is_tokens filename = true /\ JSON_stringify B d = None)) /\
    db w' = db w /\ cache w' = cache w /\
    trace w' = (trace w ++ [Logged ("Error writing " +:+ filename +:+ " to database:") e])%list.
Proof.
  intros Hfree. unfold writeJson, writeJson_try.
  destruct (is_tokens filename) eqn:Htok.
  - destruct (encrypt_draws (JSON_stringify B d) (userId self) w) as (r & Henc & Hnone & Hsome).
    run. rewrite Henc. destruct (JSON_stringify B d) as [text |].
    + destruct Hsome as [c ->]; [discriminate |]. cbn. rewrite Hfree.
      do 2 eexists. split; [reflexivity |]. cbn. auto.
    + destruct Hnone as [e ->]; [reflexivity |].
      do 2 eexists. split; [reflexivity |]. cbn. auto.
  - destruct (is_client_info filename); run; rewrite Hfree;
      do 2 eexists; (split; [reflexivity |]); cbn; auto.
Qed.

Lemma readJson_fetch_unbound self serverUrlHash filename cacheKey w :
  prisma_global w = None ->
  is_tokens filename = false ->
  readJson_fetch B env self serverUrlHash filename cacheKey w
  = (Ok JUndefined,
     emit (Logged ("Error reading " +:+ filename +:+ " from database:")
                  (ReferenceError "prisma")) w).
Proof.
  intros Hfree Htok. unfold readJson_fetch, readJson_try. rewrite Htok.
  destruct (is_client_info filename); run; rewrite Hfree; reflexivity.
Qed.

Lemma delete_unbound self serverUrlHash filename w :
  prisma_global w = None ->
  delete_ self serverUrlHash filename w
  = (Ok tt,
     emit (Logged ("Error deleting " +:+ filename +:+ ":") (ReferenceError "prisma"))
          (set_cache (delete (getCacheKey self serverUrlHash filename)) w)).
Proof.
  intros Hfree. unfold delete_, delete_try.
  destruct (is_tokens filename); [| destruct (is_client_info filename)];
    run; cbn; rewrite Hfree; reflexivity.
Qed.

(** The read of [tokens.json] does not look at the free identifier: it
    calls [getPrismaClient]. *)
Lemma readJson_try_tokens_bound self serverUrlHash cacheKey w :
  readJson_try B env self serverUrlHash "tokens.json" cacheKey w
  = bind (getPrismaClient env)
      (fun prisma =>
         let! record := token_findUnique prisma (userId self, connectionId self, serverUrlHash) in
         match record with
         | None => ret JUndefined
         | Some record =>
             let! decrypted := lift (decrypt B env (tokenData record) (userId self)) in
             let! d := lift (JSON_parse B decrypted) in
             setCache cacheKey d;;;
             ret d
         end) w.
Proof. reflexivity. Qed.
End FreeIdentifier.

(** ** Reads are fail-soft *)

Section FailSoftReads.
Context (B : Builtins) (env : ProcessEnv) (F : FileConfig).

(** The fetch of [readJson] returns: whatever its [try] throws is logged
    and becomes [undefined]. *)
Lemma readJson_fetch_catches self serverUrlHash filename cacheKey w :
  match readJson_try B env self serverUrlHash filename cacheKey w with
  | (Ok v, w1) =>
      readJson_fetch B env self serverUrlHash filename cacheKey w = (Ok v, w1)
  | (Throw e, w1) =>
      readJson_fetch B env self serverUrlHash filename cacheKey w
      = (Ok JUndefined,
         emit (Logged ("Error reading " +:+ filename +:+ " from database:") e) w1)
  end.
Proof.
  unfold readJson_fetch, try_catch.
  destruct (readJson_try B env self serverUrlHash filename cacheKey w) as [[v | e] w1];
    reflexivity.
Qed.

Lemma readJson_fetch_returns self serverUrlHash filename cacheKey w :
  exists v w', readJson_fetch B env self serverUrlHash filename cacheKey w = (Ok v, w').
Proof.
  pose proof (readJson_fetch_catches self serverUrlHash filename cacheKey w) as H.
  destruct (readJson_try B env self serverUrlHash filename cacheKey w) as [[v | e] w1]; eauto.
Qed.

Lemma readJson_returns self serverUrlHash filename w :
  exists v w', readJson B env self serverUrlHash filename w = (Ok v, w').
Proof.
  unfold readJson, bind.
  destruct (getFromCache_total (getCacheKey self serverUrlHash filename) w)
    as (v & w0 & -> & _).
  destruct (not_null v); [unfold ret; eauto |]. apply readJson_fetch_returns.
Qed.

(** The read of [tokens.json] stage by stage, once [getPrismaClient] has
    returned a client: a failed request, a missing row, a text that does not
    decrypt and a text that does not parse all end in [undefined]; only a
    parsed value is cached and returned. *)
Lemma readJson_fetch_tokens self serverUrlHash cacheKey w c w1 :
  getPrismaClient env w = (Ok c, w1) ->
  readJson_fetch B env self serverUrlHash "tokens.json" cacheKey w =
  let msg := "Error reading tokens.json from database:" in
  let w2 := emit (Queried FindUnique TokenTable)
                 (set_now (fun n => n + latency (db w1)) w1) in
  match outage (db w1) with
  | Some e => (Ok JUndefined, emit (Logged msg e) w2)
  | None =>
      match mCPRemoteToken (db w1) !! (userId self, connectionId self, serverUrlHash) with
      | None => (Ok JUndefined, w2)
      | Some record =>
          match decrypt B env (tokenData record) (userId self) with
          | Throw e => (Ok JUndefined, emit (Logged msg e) w2)
          | Ok decrypted =>
              match JSON_parse B decrypted with
              | Throw e => (Ok JUndefined, emit (Logged msg e) w2)
              | Ok d => (Ok d, set_cache (insert cacheKey (mkEntry d (now w2))) w2)
              end
          end
      end
  end.
Proof.
  intros Hclient. unfold readJson_fetch, readJson_try.
  change (is_tokens "tokens.json") with true. cbn iota.
  unfold token_findUnique, request, setCache. run. rewrite Hclient.
  destruct (outage (db w1)) as [e |]; [reflexivity |]. cbn.
  destruct (mCPRemoteToken (db w1) !! _) as [record |]; [| reflexivity].
  destruct (decrypt B env (tokenData record) (userId self)) as [decrypted | e]; [| reflexivity].
  destruct (JSON_parse B decrypted) as [d | e]; reflexivity.
Qed.

(** What a read of [tokens.json] caches: the value [JSON.parse] gave for the
    decrypted text of the row, [null] included. *)
Lemma readJson_tokens_caches self serverUrlHash w c w1 record decrypted d :
  let key := getCacheKey self serverUrlHash "tokens.json" in
  cache w !! key = None ->
  getPrismaClient env (set_cache (delete key) w) = (Ok c, w1) ->
  outage (db w1) = None ->
  mCPRemoteToken (db w1) !! (userId self, connectionId self, serverUrlHash) = Some record ->
  decrypt B env (tokenData record) (userId self) = Ok decrypted ->
  JSON_parse B decrypted = Ok d ->
  exists w2,
    readJson B env self serverUrlHash "tokens.json" w = (Ok d, w2) /\
    cache w2 !! key = Some (mkEntry d (now w2)).
Proof.
  intros key Hmiss Hclient Hup Hrow Hdec Hparse.
  rewrite (readJson_absent B env self serverUrlHash "tokens.json" w Hmiss).
  rewrite (readJson_fetch_tokens self serverUrlHash _ _ c w1 Hclient). cbn zeta.
  rewrite Hup, Hrow, Hdec, Hparse. eexists. split; [reflexivity |].
  cbn. apply lookup_insert_eq.
Qed.

(** No client: [getPrismaClient] throws inside the [try]. *)
Lemma readJson_fetch_tokens_no_client self serverUrlHash cacheKey w e w1 :
  getPrismaClient env w = (Throw e, w1) ->
  readJson_fetch B env self serverUrlHash "tokens.json" cacheKey w
  = (Ok JUndefined, emit (Logged "Error reading tokens.json from database:" e) w1).
Proof.
  intros Hclient. unfold readJson_fetch, readJson_try.
  change (is_tokens "tokens.json") with true. cbn iota. run. rewrite Hclient. reflexivity.
Qed.

(** In durable mode the exported [readJsonFile] returns as well: what
    [parseAsync] throws is logged and becomes [undefined]. *)
Lemma readJsonFile_durable storage serverUrlHash filename schema w w0 :
  getStorage env w = (Ok (Some storage), w0) ->
  forall d w1,
    readJson B env storage serverUrlHash filename w0 = (Ok d, w1) ->
    readJsonFile B env F serverUrlHash filename schema w =
    if negb (truthy d) then (Ok JUndefined, w1)
    else match schema d with
         | Ok v => (Ok v, emit (Validated d) w1)
         | Throw e =>
             (Ok JUndefined,
              emit (Logged ("Database read error for " +:+ filename +:+ ":") e)
                   (emit (Validated d) w1))
         end.
Proof.
  intros Hsel d w1 Hread. unfold readJsonFile, parseAsync. run.
  rewrite Hsel, Hread. destruct (truthy d); cbn; [| reflexivity].
  destruct (schema d); reflexivity.
Qed.
End FailSoftReads.

(** C2.  In a process whose global object has no [prisma] (the modules
    declare none outside the [tokens.json] block of [readJson]):
    [writeJson] throws for every filename and value, having sent no request
    and changed neither the store nor the cache; a [readJson] that misses
    the cache returns [undefined] for every filename but [tokens.json],
    through its [catch]; and [delete] returns normally with every row still
    in place, its [catch] having logged the [ReferenceError].  The read of
    [tokens.json] is the one place that has a client: when it misses the
    cache and [getPrismaClient] returns, its request is sent. *)
Theorem prisma_bound_only_in_tokens_read (B : Builtins) (env : ProcessEnv)
    (self : DatabaseStorage) (serverUrlHash filename : string) (d : JsValue) (w : World) :
  prisma_global w = None ->
  (exists e w',
     writeJson B env self serverUrlHash filename d w = (Throw e, w') /\
     (e = ReferenceError "prisma" \/ (is_tokens filename = true /\ JSON_stringify B d = None)) /\
     db w' = db w /\ cache w' = cache w /\
     trace w' = (trace w ++ [Logged ("Error writing " +:+ filename +:+ " to database:") e])%list) /\
  (is_tokens filename = false ->
   forall w0,
     getFromCache (getCacheKey self serverUrlHash filename) w = (Ok JNull, w0) ->
     readJson B env self serverUrlHash filename w
     = (Ok JUndefined,
        emit (Logged ("Error reading " +:+ filename +:+ " from database:")
                     (ReferenceError "prisma")) w0)) /\
  (exists w',
     delete_ self serverUrlHash filename w = (Ok tt, w') /\
     db w' = db w /\
     trace w' = (trace w ++ [Logged ("Error deleting " +:+ filename +:+ ":")
                                    (ReferenceError "prisma")])%list) /\
  (forall w0 c w1,
     getFromCache (getCacheKey self serverUrlHash "tokens.json") w = (Ok JNull, w0) ->
     getPrismaClient env w0 = (Ok c, w1) ->
     In (Queried FindUnique TokenTable)
        (trace (snd (readJson B env self serverUrlHash "tokens.json" w)))).
Proof.
  intros Hfree. split; [| split; [| split]].
  - now apply writeJson_unbound.
  - intros Htok w0 Hmiss. unfold readJson, bind. rewrite Hmiss. cbn [not_null].
    apply readJson_fetch_unbound; [| exact Htok].
    destruct (getFromCache_null_inv _ _ _ Hmiss) as [-> | [-> _]]; exact Hfree.
  - eexists. split; [now apply delete_unbound |]. split; reflexivity.
  - intros w0 c w1 Hmiss Hclient. unfold readJson, bind. rewrite Hmiss. cbn [not_null].
    rewrite (readJson_fetch_tokens B env self serverUrlHash _ w0 c w1 Hclient). cbn zeta.
    destruct (outage (db w1)) as [e |];
      [| destruct (mCPRemoteToken (db w1) !! _) as [record |];
         [destruct (decrypt B env (tokenData record) (userId self)) as [text | e];
          [destruct (JSON_parse B text) as [v | e] |] |]];
      cbn; rewrite ?in_app_iff; cbn; auto.
Qed.

Lemma prisma_bound_only_in_tokens_read_witness :
  prisma_global (Sample.start 0) = None /\
  (exists e w',
     writeJson Sample.builtins Sample.env Sample.storage "abc" "client_info.json"
       Sample.tokens (Sample.start 0) = (Throw e, w') /\
     db w' = db (Sample.start 0)) /\
  (exists w',
     delete_ Sample.storage "abc" "client_info.json" (Sample.start 0) = (Ok tt, w') /\
     db w' = db (Sample.start 0)).
Proof.
  split; [reflexivity |].
  destruct (prisma_bound_only_in_tokens_read Sample.builtins Sample.env Sample.storage
              "abc" "client_info.json" Sample.tokens (Sample.start 0) eq_refl)
    as ((e & w' & Hw & _ & Hdb & _) & _ & (w'' & Hd & Hdb' & _) & _).
  split; [exists e, w' | exists w'']; auto.
Defined.

(** C5.  [readJson] returns for every instance, address and world.  Every
    error thrown in its [try] (by [getPrismaClient], the request, [decrypt]
    or [JSON.parse]) is logged and turned into [undefined], which is also
    the answer for a row that was never written.  In durable mode
    [readJsonFile] returns too, and turns an error of the schema into
    [undefined] in the same way. *)
Theorem readJson_never_throws (B : Builtins) (env : ProcessEnv) (F : FileConfig)
    (self : DatabaseStorage) (serverUrlHash filename : string) (schema : Schema) (w : World) :
  (exists v w', readJson B env self serverUrlHash filename w = (Ok v, w')) /\
  (forall w0 e w1,
     getFromCache (getCacheKey self serverUrlHash filename) w = (Ok JNull, w0) ->
     readJson_try B env self serverUrlHash filename (getCacheKey self serverUrlHash filename) w0
     = (Throw e, w1) ->
     readJson B env self serverUrlHash filename w
     = (Ok JUndefined,
        emit (Logged ("Error reading " +:+ filename +:+ " from database:") e) w1)) /\
  (forall storage w0,
     getStorage env w = (Ok (Some storage), w0) ->
     (exists v w', readJsonFile B env F serverUrlHash filename schema w = (Ok v, w')) /\
     (forall d w1 e,
        readJson B env storage serverUrlHash filename w0 = (Ok d, w1) ->
        truthy d = true ->
        schema d = Throw e ->
        readJsonFile B env F serverUrlHash filename schema w
        = (Ok JUndefined,
           emit (Logged ("Database read error for " +:+ filename +:+ ":") e)
                (emit (Validated d) w1)))).
Proof.
  split; [apply readJson_returns | split].
  - intros w0 e w1 Hmiss Htry. unfold readJson, bind. rewrite Hmiss. cbn [not_null].
    pose proof (readJson_fetch_catches B env self serverUrlHash filename
                  (getCacheKey self serverUrlHash filename) w0) as H.
    now rewrite Htry in H.
  - intros storage w0 Hsel. split.
    + destruct (readJson_returns B env storage serverUrlHash filename w0) as (d & w1 & Hread).
      rewrite (readJsonFile_durable B env F _ _ _ schema _ _ Hsel d w1 Hread).
      destruct (negb (truthy d)); [eauto |]. destruct (schema d); eauto.
    + intros d w1 e Hread Htruthy Hschema.
      rewrite (readJsonFile_durable B env F _ _ _ schema _ _ Hsel d w1 Hread).
      now rewrite Htruthy, Hschema.
Qed.

(** Two of the three ways a read of [tokens.json] can find nothing, on the
    sample inputs: no row, and a row whose tag does not authenticate. *)
Example never_written_and_corrupted_read_alike :
  fst (readJson Sample.builtins Sample.env Sample.storage "abc" "tokens.json" (Sample.start 0))
  = Ok JUndefined /\
  fst (readJson Sample.builtins Sample.env Sample.storage "abc" "tokens.json"
         (set_db (set_tokens (insert ("u1", "c1", "abc")
            (mkTokenRow
               "2a2a2a2a2a2a2a2a2a2a2a2a2a2a2a2a:31756e6f69746375646f72702d6e692e:6e756c6c"
               (JString "oauth") "" None))) (Sample.start 0)))
  = Ok JUndefined.
Proof. split; vm_compute; reflexivity. Qed.

(** ** [delete] *)

Lemma set_db_id (f : Database -> Database) (w : World) :
  f (db w) = db w -> set_db f w = w.
Proof. intros Hf. destruct w. unfold set_db. cbn in *. now rewrite Hf. Qed.

Lemma without_record_absent self serverUrlHash filename (d : Database) :
  has_record self serverUrlHash filename d = false ->
  without_record self serverUrlHash filename d = d.
Proof.
  unfold has_record, without_record. destruct d as [tokens infos storages o l].
  destruct (is_tokens filename); [| destruct (is_client_info filename)];
    cbn; intros Hnone%bool_decide_eq_false; rewrite <- eq_None_not_Some in Hnone;
    unfold set_tokens, set_clientInfos, set_storages; cbn; now rewrite delete_id.
Qed.

(** [delete] with the identifier [prisma] resolved: what it returns and the
    world it leaves, by what the record store answers. *)
Lemma delete_resolved self serverUrlHash filename w c :
  prisma_global w = Some c ->
  delete_ self serverUrlHash filename w =
  let w1 := sent Delete (table_of filename)
              (set_cache (delete (getCacheKey self serverUrlHash filename)) w) in
  match outage (db w) with
  | Some e =>
      (Ok tt,
       if code_differs e "P2025"
       then emit (Logged ("Error deleting " +:+ filename +:+ ":") e) w1
       else w1)
  | None => (Ok tt, set_db (without_record self serverUrlHash filename) w1)
  end.
Proof.
  intros Hres. unfold delete_, delete_try, table_of, sent.
  destruct (is_tokens filename) eqn:Htok; [| destruct (is_client_info filename) eqn:Hci];
    unfold token_delete, clientInfo_delete, storage_delete, request; run; cbn;
    rewrite Hres; cbn;
    (destruct (outage (db w)) as [e |]; [destruct (code_differs e "P2025"); reflexivity |]);
    cbn.
  - destruct (mCPRemoteToken (db w) !! _) eqn:Hrow; cbn.
    + unfold without_record. now rewrite Htok.
    + rewrite set_db_id; [reflexivity |]. apply without_record_absent.
      unfold has_record. rewrite Htok. cbn. rewrite Hrow. apply bool_decide_eq_false.
      now intros [? ?].
  - destruct (mCPRemoteClientInfo (db w) !! _) eqn:Hrow; cbn.
    + unfold without_record. now rewrite Htok, Hci.
    + rewrite set_db_id; [reflexivity |]. apply without_record_absent.
      unfold has_record. rewrite Htok, Hci. cbn. rewrite Hrow. apply bool_decide_eq_false.
      now intros [? ?].
  - destruct (mCPRemoteStorage (db w) !! _) eqn:Hrow; cbn.
    + unfold without_record. now rewrite Htok, Hci.
    + rewrite set_db_id; [reflexivity |]. apply without_record_absent.
      unfold has_record. rewrite Htok, Hci. cbn. rewrite Hrow. apply bool_decide_eq_false.
      now intros [? ?].
Qed.

Lemma delete_returns self serverUrlHash filename w :
  exists w', delete_ self serverUrlHash filename w = (Ok tt, w') /\
             cache w' = delete (getCacheKey self serverUrlHash filename) (cache w).
Proof.
  destruct (prisma_global w) as [c |] eqn:Hres.
  - rewrite (delete_resolved _ _ _ _ c Hres). cbn zeta.
    destruct (outage (db w)) as [e |]; [destruct (code_differs e "P2025") |];
      eexists; split; reflexivity.
  - rewrite (delete_unbound _ _ _ _ Hres). eexists; split; reflexivity.
Qed.

(** C3, as the code has it.  [delete] removes the cache entry first and
    returns normally whatever happens next: it never throws.  Where the
    identifier [prisma] resolves to a client, a served request leaves the
    store without the row of the address, whether there was one or not (the
    [P2025] of a missing row is dropped in silence); a request that fails
    otherwise leaves the store as it was, and the failure is logged, not
    thrown.  A second [delete] right after the first returns normally too. *)
Theorem delete_never_throws (self : DatabaseStorage) (serverUrlHash filename : string)
    (w : World) :
  (exists w',
     delete_ self serverUrlHash filename w = (Ok tt, w') /\
     cache w' = delete (getCacheKey self serverUrlHash filename) (cache w) /\
     fst (delete_ self serverUrlHash filename w') = Ok tt) /\
  (forall c,
     prisma_global w = Some c ->
     exists w',
       delete_ self serverUrlHash filename w = (Ok tt, w') /\
       match outage (db w) with
       | None =>
           db w' = without_record self serverUrlHash filename (db w) /\
           has_record self serverUrlHash filename (db w') = false /\
           trace w' = (trace w ++ [Queried Delete (table_of filename)])%list
       | Some e =>
           db w' = db w /\
           trace w' = (trace w ++ Queried Delete (table_of filename) ::
                         if code_differs e "P2025"
                         then [Logged ("Error deleting " +:+ filename +:+ ":") e]
                         else [])%list
       end).
Proof.
  split.
  - destruct (delete_returns self serverUrlHash filename w) as (w' & Hdel & Hcache).
    exists w'. split; [exact Hdel |]. split; [exact Hcache |].
    destruct (delete_returns self serverUrlHash filename w') as (w'' & -> & _). reflexivity.
  - intros c Hres. rewrite (delete_resolved _ _ _ _ c Hres). cbn zeta.
    destruct (outage (db w)) as [e |].
    + eexists. split; [reflexivity |].
      destruct (code_differs e "P2025"); cbn; rewrite <- ?app_assoc; split; reflexivity.
    + eexists. split; [reflexivity |]. cbn. split; [reflexivity |]. split; [| reflexivity].
      unfold has_record, without_record.
      destruct (is_tokens filename); [| destruct (is_client_info filename)];
        cbn; apply bool_decide_eq_false; rewrite lookup_delete_eq; now intros [? ?].
Qed.

Lemma delete_never_throws_witness :
  exists w',
    delete_ Sample.storage "abc" "tokens.json"
      (Sample.with_global_prisma (Sample.with_null_token (Sample.start 0))) = (Ok tt, w') /\
    mCPRemoteToken (db w') !! ("u1", "c1", "abc") = None.
Proof.
  destruct (delete_never_throws Sample.storage "abc" "tokens.json"
              (Sample.with_global_prisma (Sample.with_null_token (Sample.start 0))))
    as [_ Hres].
  destruct (Hres _ eq_refl) as (w' & Hdel & Hdb & _).
  exists w'. split; [exact Hdel |]. rewrite Hdb. vm_compute. reflexivity.
Defined.

(** C3 as stated fails twice over.  In the process as the modules define
    it, [delete] of a stored token returns normally with the row still in
    the table.  And where [prisma] does resolve, a request that fails with a
    code other than [P2025] (here [P1001], the store cannot be reached) is
    not passed on to the caller. *)
Lemma delete_keeps_failures_to_itself :
  (let r := delete_ Sample.storage "abc" "tokens.json"
              (Sample.with_null_token (Sample.start 0)) in
   fst r = Ok tt /\
   mCPRemoteToken (db (snd r)) !! ("u1", "c1", "abc") = Some Sample.null_token_row) /\
  (let r := delete_ Sample.storage "abc" "tokens.json"
              (Sample.down (PrismaError "P1001")
                 (Sample.with_global_prisma (Sample.with_null_token (Sample.start 0)))) in
   fst r = Ok tt /\
   trace (snd r) = [Queried Delete TokenTable;
                    Logged "Error deleting tokens.json:" (PrismaError "P1001")]).
Proof. split; vm_compute; split; reflexivity. Qed.

(** ** The backend selector *)

Create HintDb keeps.

Lemma keeps_ret {A} (a : A) : keeps_instance (ret a).
Proof. intros w. split; reflexivity. Qed.

Lemma keeps_throw {A} (e : JsError) : keeps_instance (@throw A e).
Proof. intros w. split; reflexivity. Qed.

Lemma keeps_lift {A} (r : Result A) : keeps_instance (lift r).
Proof. intros w. split; reflexivity. Qed.

Lemma keeps_bind {A C} (m : M A) (k : A -> M C) :
  keeps_instance m -> (forall a, keeps_instance (k a)) -> keeps_instance (bind m k).
Proof.
  intros Hm Hk w. unfold bind. specialize (Hm w).
  destruct (m w) as [[a | e] w1]; cbn in *; [| exact Hm].
  specialize (Hk a w1). destruct Hk as [H1 H2], Hm as [H3 H4]. split; congruence.
Qed.

Lemma keeps_try_catch {A} (body : M A) (handler : JsError -> M A) :
  keeps_instance body -> (forall e, keeps_instance (handler e)) ->
  keeps_instance (try_catch body handler).
Proof.
  intros Hm Hk w. unfold try_catch. specialize (Hm w).
  destruct (body w) as [[a | e] w1]; cbn in *; [exact Hm |].
  specialize (Hk e w1). destruct Hk as [H1 H2], Hm as [H3 H4]. split; congruence.
Qed.

Lemma keeps_log msg e : keeps_instance (log msg e).
Proof. intros w. split; reflexivity. Qed.

Lemma keeps_Date_now : keeps_instance Date_now.
Proof. intros w. split; reflexivity. Qed.

Lemma keeps_randomBytes16 : keeps_instance randomBytes16.
Proof. intros w. split; reflexivity. Qed.

Lemma keeps_free_prisma : keeps_instance free_prisma.
Proof. intros w. unfold free_prisma. destruct (prisma_global w); split; reflexivity. Qed.

Lemma keeps_request req t : keeps_instance (request req t).
Proof. intros w. unfold request. destruct (outage (db w)); split; reflexivity. Qed.

Lemma keeps_getFromCache key : keeps_instance (getFromCache key).
Proof.
  intros w. unfold getFromCache. destruct (cache w !! key) as [cached |].
  - destruct (now w - timestamp cached <? CACHE_TTL); split; reflexivity.
  - split; reflexivity.
Qed.

Lemma keeps_getPrismaClient env : keeps_instance (getPrismaClient env).
Proof.
  intros w. unfold getPrismaClient. destruct (prisma_module w); [split; reflexivity |].
  destruct (negb (str_truthy (env_DATABASE_URL env))); split; reflexivity.
Qed.

Lemma keeps_required column v : keeps_instance (required column v).
Proof. destruct v; [apply keeps_ret | apply keeps_throw]. Qed.

#[local] Hint Resolve keeps_ret keeps_throw keeps_lift keeps_log keeps_Date_now
  keeps_randomBytes16 keeps_free_prisma keeps_request keeps_getFromCache
  keeps_getPrismaClient keeps_required : keeps.

(** Splits a computation along its binds, handlers and branches, closes the
    leaves from the hint base, and runs what is left on a world. *)
Ltac keeps :=
  repeat match goal with
         | |- keeps_instance (bind _ _) => apply keeps_bind; [| intros ?]
         | |- keeps_instance (try_catch _ _) => apply keeps_try_catch; [| intros ?]
         | |- keeps_instance (if ?b then _ else _) => destruct b
         | |- keeps_instance (match ?x with _ => _ end) => destruct x
         | |- keeps_instance _ => solve [auto with keeps]
         | |- keeps_instance _ =>
             let w := fresh "w" in
             intros w; cbn;
             repeat match goal with
                    | |- context [match ?x with _ => _ end] => destruct x
                    end;
             split; reflexivity
         end.

Lemma keeps_setCache key d : keeps_instance (setCache key d).
Proof. unfold setCache. keeps. Qed.

Lemma keeps_encrypt B env text userId : keeps_instance (encrypt B env text userId).
Proof. unfold encrypt. keeps. Qed.

#[local] Hint Resolve keeps_setCache keeps_encrypt : keeps.

Section Singleton.
Context (B : Builtins) (env : ProcessEnv).

Lemma keeps_readJson self serverUrlHash filename :
  keeps_instance (readJson B env self serverUrlHash filename).
Proof.
  unfold readJson, readJson_fetch, readJson_try,
    token_findUnique, clientInfo_findUnique, storage_findUnique.
  keeps.
Qed.

Lemma keeps_writeJson self serverUrlHash filename d :
  keeps_instance (writeJson B env self serverUrlHash filename d).
Proof.
  unfold writeJson, writeJson_try, token_upsert, clientInfo_upsert, storage_upsert.
  keeps.
Qed.

Lemma keeps_readText self serverUrlHash filename :
  keeps_instance (readText B env self serverUrlHash filename).
Proof. unfold readText. apply keeps_bind; [apply keeps_readJson | intros d]. keeps. Qed.

Lemma keeps_writeText self serverUrlHash filename text :
  keeps_instance (writeText B env self serverUrlHash filename text).
Proof. apply keeps_writeJson. Qed.

Lemma keeps_delete self serverUrlHash filename :
  keeps_instance (delete_ self serverUrlHash filename).
Proof.
  unfold delete_, delete_try, token_delete, clientInfo_delete, storage_delete.
  keeps.
Qed.

Lemma keeps_parseAsync schema d : keeps_instance (parseAsync schema d).
Proof. intros w. split; reflexivity. Qed.

(** [getStorage] by cases on the configuration and on [storageInstance]. *)
Lemma getStorage_null w :
  DB_MODE env = false \/ str_truthy (USER_ID env) = false \/
  str_truthy (CONNECTION_ID env) = false ->
  getStorage env w = (Ok None, w).
Proof.
  intros H. unfold getStorage.
  destruct H as [-> | [-> | ->]]; cbn; rewrite ?orb_true_r; reflexivity.
Qed.

Lemma getStorage_memo w s :
  DB_MODE env = true -> str_truthy (USER_ID env) = true ->
  str_truthy (CONNECTION_ID env) = true ->
  storageInstance w = Some s ->
  getStorage env w = (Ok (Some s), w).
Proof. intros Hm Hu Hc Hs. unfold getStorage. now rewrite Hm, Hu, Hc, Hs. Qed.

Lemma getStorage_first w :
  DB_MODE env = true -> str_truthy (USER_ID env) = true ->
  str_truthy (CONNECTION_ID env) = true ->
  storageInstance w = None ->
  getStorage env w =
  (Ok (Some (mkStorage (next_oid w) (str_or (USER_ID env) "") (str_or (CONNECTION_ID env) ""))),
   set_storageInstance
     (Some (mkStorage (next_oid w) (str_or (USER_ID env) "") (str_or (CONNECTION_ID env) "")))
     (set_next_oid S w)).
Proof. intros Hm Hu Hc Hs. unfold getStorage. now rewrite Hm, Hu, Hc, Hs. Qed.

Lemma getStorage_some_inv w s w0 :
  getStorage env w = (Ok (Some s), w0) ->
  DB_MODE env = true /\ str_truthy (USER_ID env) = true /\
  str_truthy (CONNECTION_ID env) = true /\ storageInstance w0 = Some s /\
  (storageInstance w = Some s /\ w0 = w \/
   storageInstance w = None /\ oid s = next_oid w /\ next_oid w0 = S (next_oid w)).
Proof.
  unfold getStorage.
  destruct (DB_MODE env), (str_truthy (USER_ID env)), (str_truthy (CONNECTION_ID env));
    cbn; try discriminate.
  destruct (storageInstance w) as [s' |] eqn:Hs; intros [= <- <-].
  - repeat split; auto.
  - repeat split; auto.
Qed.

Lemma getStorage_none_inv w w0 :
  getStorage env w = (Ok None, w0) ->
  w0 = w /\ (DB_MODE env = false \/ str_truthy (USER_ID env) = false \/
             str_truthy (CONNECTION_ID env) = false).
Proof.
  unfold getStorage.
  destruct (DB_MODE env), (str_truthy (USER_ID env)), (str_truthy (CONNECTION_ID env));
    cbn; try (intros [= <-]; auto 6; fail).
  destruct (storageInstance w); discriminate.
Qed.

(** Once an instance is in place, the exported functions leave it there. *)
Lemma exports_keep_instance (F : FileConfig) w s serverUrlHash filename schema d text
    errorMessage :
  DB_MODE env = true -> str_truthy (USER_ID env) = true ->
  str_truthy (CONNECTION_ID env) = true ->
  storageInstance w = Some s ->
  storageInstance (snd (readJsonFile B env F serverUrlHash filename schema w)) = Some s /\
  storageInstance (snd (writeJsonFile B env F serverUrlHash filename d w)) = Some s /\
  storageInstance (snd (readTextFile B env F serverUrlHash filename errorMessage w)) = Some s /\
  storageInstance (snd (writeTextFile B env F serverUrlHash filename text w)) = Some s.
Proof.
  intros Hm Hu Hc Hs. pose proof (getStorage_memo w s Hm Hu Hc Hs) as Hsel.
  unfold readJsonFile, writeJsonFile, readTextFile, writeTextFile.
  split; [| split; [| split]]; unfold bind at 1; rewrite Hsel; rewrite <- Hs.
  - apply keeps_try_catch.
    + apply keeps_bind; [apply keeps_readJson | intros v].
      destruct (negb (truthy v)); [apply keeps_ret | apply keeps_parseAsync].
    + intros e. keeps.
  - apply keeps_writeJson.
  - apply keeps_try_catch; [apply keeps_readText | intros e; keeps].
  - apply keeps_writeText.
Qed.

Lemma getStorage_returns w : exists r w0, getStorage env w = (Ok r, w0).
Proof.
  unfold getStorage.
  destruct (negb (DB_MODE env) || negb (str_truthy (USER_ID env))
            || negb (str_truthy (CONNECTION_ID env))); [eauto |].
  destruct (storageInstance w); eauto.
Qed.
End Singleton.

(** C7.  [getStorage] returns [null] unless [MCP_STORAGE_TYPE] is
    [database] and [MCP_USER_ID] and [MCP_CONNECTION_ID] are set (an empty
    string counts as not set).  An instance it returns is the one in
    [storageInstance]: every later call returns that same object, and
    neither an operation of the adapter nor an exported function replaces it.  Each of the four exported
    functions is the file-based function of the same name when [getStorage]
    returns [null], and the adapter's path, with no call of the file-based
    module, when it returns an instance. *)
Theorem getStorage_selects_the_backend (B : Builtins) (env : ProcessEnv) (F : FileConfig)
    (serverUrlHash filename : string) (schema : Schema) (d : JsValue) (text : string)
    (errorMessage : option string) (w : World) :
  (exists r w0, getStorage env w = (Ok r, w0)) /\
  (env_MCP_STORAGE_TYPE env <> Some "database" \/ env_MCP_USER_ID env = None \/
   env_MCP_CONNECTION_ID env = None ->
   getStorage env w = (Ok None, w)) /\
  (getStorage env w = (Ok None, w) <->
   env_MCP_STORAGE_TYPE env <> Some "database" \/
   str_truthy (env_MCP_USER_ID env) = false \/
   str_truthy (env_MCP_CONNECTION_ID env) = false) /\
  (forall s w0,
     getStorage env w = (Ok (Some s), w0) ->
     storageInstance w0 = Some s /\
     (forall w', storageInstance w' = Some s -> getStorage env w' = (Ok (Some s), w')) /\
     (forall w' self h f v,
        storageInstance w' = Some s ->
        storageInstance (snd (readJson B env self h f w')) = Some s /\
        storageInstance (snd (writeJson B env self h f v w')) = Some s /\
        storageInstance (snd (readText B env self h f w')) = Some s /\
        storageInstance (snd (delete_ self h f w')) = Some s /\
        storageInstance (snd (readJsonFile B env F h f schema w')) = Some s /\
        storageInstance (snd (writeJsonFile B env F h f v w')) = Some s /\
        storageInstance (snd (readTextFile B env F h f errorMessage w')) = Some s /\
        storageInstance (snd (writeTextFile B env F h f text w')) = Some s)) /\
  (forall w0,
     getStorage env w = (Ok None, w0) ->
     readJsonFile B env F serverUrlHash filename schema w
     = fileReadJsonFile F serverUrlHash filename schema w /\
     writeJsonFile B env F serverUrlHash filename d w
     = fileWriteJsonFile F serverUrlHash filename d w /\
     readTextFile B env F serverUrlHash filename errorMessage w
     = fileReadTextFile F serverUrlHash filename errorMessage w /\
     writeTextFile B env F serverUrlHash filename text w
     = fileWriteTextFile F serverUrlHash filename text w) /\
  (forall s w0,
     getStorage env w = (Ok (Some s), w0) ->
     readJsonFile B env F serverUrlHash filename schema w
     = try_catch
         (let! v := readJson B env s serverUrlHash filename in
          if negb (truthy v) then ret JUndefined else parseAsync schema v)
         (fun error =>
            log ("Database read error for " +:+ filename +:+ ":") error;;;
            ret JUndefined) w0 /\
     writeJsonFile B env F serverUrlHash filename d w
     = writeJson B env s serverUrlHash filename d w0 /\
     readTextFile B env F serverUrlHash filename errorMessage w
     = try_catch (readText B env s serverUrlHash filename)
         (fun _ => throw (Error (str_or errorMessage ("Error reading " +:+ filename)))) w0 /\
     writeTextFile B env F serverUrlHash filename text w
     = writeText B env s serverUrlHash filename text w0).
Proof.
  assert (Hmode : DB_MODE env = false <-> env_MCP_STORAGE_TYPE env <> Some "database").
  { unfold DB_MODE. destruct (env_MCP_STORAGE_TYPE env) as [m |]; [| easy].
    rewrite String.eqb_neq. split; congruence. }
  split; [apply getStorage_returns |]. split; [| split; [| split; [| split]]].
  - intros Hcfg. apply getStorage_null. unfold USER_ID, CONNECTION_ID.
    destruct Hcfg as [Hm | [-> | ->]]; [left | right; left | right; right]; try reflexivity.
    now apply Hmode.
  - split.
    + intros Hnull. destruct (getStorage_none_inv env w w Hnull) as [_ [Hm | H]]; [| auto].
      left. now apply Hmode.
    + intros [Hm | H]; apply getStorage_null; [left; now apply Hmode | auto].
  - intros s w0 Hsel.
    destruct (getStorage_some_inv env w s w0 Hsel) as (Hm & Hu & Hc & Hs & _).
    split; [exact Hs |]. split.
    + intros w' Hs'. now apply getStorage_memo.
    + intros w' self h f v Hs'.
      rewrite (proj1 (keeps_readJson B env self h f w')),
        (proj1 (keeps_writeJson B env self h f v w')),
        (proj1 (keeps_readText B env self h f w')),
        (proj1 (keeps_delete self h f w')).
      do 4 (split; [exact Hs' |]).
      now apply exports_keep_instance.
  - intros w0 Hsel. destruct (getStorage_none_inv env w w0 Hsel) as [-> _].
    unfold readJsonFile, writeJsonFile, readTextFile, writeTextFile, bind.
    rewrite Hsel. repeat split; reflexivity.
  - intros s w0 Hsel.
    split; [| split; [| split]].
    + unfold readJsonFile. unfold bind at 1. now rewrite Hsel.
    + unfold writeJsonFile. unfold bind at 1. now rewrite Hsel.
    + unfold readTextFile. unfold bind at 1. now rewrite Hsel.
    + unfold writeTextFile. unfold bind at 1. now rewrite Hsel.
Qed.

Lemma getStorage_selects_the_backend_witness :
  (exists w0,
     getStorage Sample.env (Sample.start 0) = (Ok (Some Sample.storage), w0) /\
     getStorage Sample.env w0 = (Ok (Some Sample.storage), w0)) /\
  getStorage Sample.file_env (Sample.start 0) = (Ok None, Sample.start 0).
Proof.
  pose proof (getStorage_selects_the_backend Sample.builtins Sample.env Sample.no_files
                "abc" "tokens.json" Ok JNull "" None (Sample.start 0)) as (_ & _ & _ & Hmemo & _).
  pose proof (getStorage_selects_the_backend Sample.builtins Sample.file_env Sample.no_files
                "abc" "tokens.json" Ok JNull "" None (Sample.start 0)) as (_ & Hnull & _).
  split.
  - destruct (Hmemo Sample.storage _ eq_refl) as (Hs & Hagain & _).
    eexists. split; [reflexivity |]. apply Hagain. exact Hs.
  - apply Hnull. left. discriminate.
Defined.

(** ** Text reads and falsy values *)

Section Falsy.
Context (B : Builtins) (env : ProcessEnv) (F : FileConfig).

Lemma readText_of self serverUrlHash filename w d w1 :
  readJson B env self serverUrlHash filename w = (Ok d, w1) ->
  readText B env self serverUrlHash filename w =
  if negb (truthy d) || typeof_not_string d
  then (Throw (Error ("Error reading " +:+ filename)), w1)
  else (Ok (as_string d), w1).
Proof.
  intros Hread. unfold readText, bind. rewrite Hread.
  destruct (negb (truthy d) || typeof_not_string d); reflexivity.
Qed.

Lemma readTextFile_of self serverUrlHash filename errorMessage w0 w d w1 :
  getStorage env w0 = (Ok (Some self), w) ->
  readJson B env self serverUrlHash filename w = (Ok d, w1) ->
  readTextFile B env F serverUrlHash filename errorMessage w0 =
  if negb (truthy d) || typeof_not_string d
  then (Throw (Error (str_or errorMessage ("Error reading " +:+ filename))), w1)
  else (Ok (as_string d), w1).
Proof.
  intros Hsel Hread. unfold readTextFile. unfold bind at 1. rewrite Hsel.
  unfold try_catch. rewrite (readText_of _ _ _ _ _ _ Hread).
  destruct (negb (truthy d) || typeof_not_string d); reflexivity.
Qed.

Lemma rejected_text (d : JsValue) :
  negb (truthy d) || typeof_not_string d = true <->
  typeof_not_string d = true \/ d = JString "".
Proof.
  destruct d as [| | b | n | s | l | l]; cbn; try (rewrite ?orb_true_r; intuition; fail).
  destruct (String.eqb_spec s ""); subst; cbn.
  - intuition.
  - split; [discriminate |]. intros [H | [= H]]; [discriminate | contradiction].
Qed.
End Falsy.

(** C9, as the code has it.  With [d] the value [readJson] returns for the
    address: [readText] throws [Error reading <filename>] when [d] is not a
    string ([undefined] included) or is the empty string, and returns the
    string otherwise; in durable mode [readTextFile] does the same, with the
    caller's [errorMessage] for message when it is a non-empty string. *)
Theorem readText_wants_a_nonempty_string (B : Builtins) (env : ProcessEnv) (F : FileConfig)
    (self : DatabaseStorage) (serverUrlHash filename : string) (errorMessage : option string)
    (w : World) (d : JsValue) (w1 : World) :
  readJson B env self serverUrlHash filename w = (Ok d, w1) ->
  (typeof_not_string d = true \/ d = JString "" ->
     readText B env self serverUrlHash filename w
     = (Throw (Error ("Error reading " +:+ filename)), w1) /\
     forall w0,
       getStorage env w0 = (Ok (Some self), w) ->
       readTextFile B env F serverUrlHash filename errorMessage w0
       = (Throw (Error (str_or errorMessage ("Error reading " +:+ filename))), w1)) /\
  (forall s,
     d = JString s -> s <> "" ->
     readText B env self serverUrlHash filename w = (Ok s, w1) /\
     forall w0,
       getStorage env w0 = (Ok (Some self), w) ->
       readTextFile B env F serverUrlHash filename errorMessage w0 = (Ok s, w1)).
Proof.
  intros Hread. split.
  - intros Hbad%rejected_text. split.
    + rewrite (readText_of B env _ _ _ _ _ _ Hread). now rewrite Hbad.
    + intros w0 Hsel. rewrite (readTextFile_of B env F _ _ _ _ _ _ _ _ Hsel Hread).
      now rewrite Hbad.
  - intros s -> Hne.
    assert (Hgood : negb (truthy (JString s)) || typeof_not_string (JString s) = false).
    { cbn. apply String.eqb_neq in Hne. now rewrite Hne. }
    split.
    + rewrite (readText_of B env _ _ _ _ _ _ Hread). now rewrite Hgood.
    + intros w0 Hsel. rewrite (readTextFile_of B env F _ _ _ _ _ _ _ _ Hsel Hread).
      now rewrite Hgood.
Qed.

Lemma readText_wants_a_nonempty_string_witness :
  readText Sample.builtins Sample.env Sample.storage "abc" "verifier.txt"
    (Sample.cached_at 0 1 "verifier.txt" (JString "s3cr3t"))
  = (Ok "s3cr3t", Sample.cached_at 0 1 "verifier.txt" (JString "s3cr3t")) /\
  fst (readText Sample.builtins Sample.env Sample.storage "abc" "verifier.txt" (Sample.start 1))
  = Throw (Error "Error reading verifier.txt").
Proof.
  split.
  - assert (Hread : readJson Sample.builtins Sample.env Sample.storage "abc" "verifier.txt"
                      (Sample.cached_at 0 1 "verifier.txt" (JString "s3cr3t"))
                    = (Ok (JString "s3cr3t"),
                       Sample.cached_at 0 1 "verifier.txt" (JString "s3cr3t")))
      by (vm_compute; reflexivity).
    destruct (readText_wants_a_nonempty_string Sample.builtins Sample.env Sample.no_files
                _ _ _ None _ _ _ Hread) as [_ Hgood].
    apply (Hgood "s3cr3t"); [reflexivity | discriminate].
  - destruct (readJson Sample.builtins Sample.env Sample.storage "abc" "verifier.txt"
                (Sample.start 1)) as [r w1] eqn:Hread.
    assert (Hr : r = Ok JUndefined) by (vm_compute in Hread; congruence). subst r.
    destruct (readText_wants_a_nonempty_string Sample.builtins Sample.env Sample.no_files
                _ _ _ None _ _ _ Hread) as [Hbad _].
    destruct Hbad as [-> _]; [left; reflexivity | reflexivity].
Defined.

(** C9 as stated fails on the empty string: a token row whose JSON is the
    empty string is read by [readJson] as a string, and [readText] throws. *)
Lemma readText_rejects_the_empty_string :
  let w := Sample.with_empty_string_token (Sample.start 0) in
  fst (readJson Sample.builtins Sample.env Sample.storage "abc" "tokens.json" w)
  = Ok (JString "") /\
  typeof_not_string (JString "") = false /\
  fst (readText Sample.builtins Sample.env Sample.storage "abc" "tokens.json" w)
  = Throw (Error "Error reading tokens.json").
Proof. vm_compute. repeat split; reflexivity. Qed.

(** C10.  In durable mode, when [readJson] returns [false], [0], the empty
    string or [null], [readJsonFile] returns [undefined], as it does for a
    missing row, and the schema is not run (the world is the one [readJson]
    left). *)
Theorem readJsonFile_hides_falsy_values (B : Builtins) (env : ProcessEnv) (F : FileConfig)
    (serverUrlHash filename : string) (schema : Schema)
    (w : World) (storage : DatabaseStorage) (w0 : World) (V : JsValue) (w1 : World) :
  getStorage env w = (Ok (Some storage), w0) ->
  readJson B env storage serverUrlHash filename w0 = (Ok V, w1) ->
  In V [JBool false; JNumber 0; JString ""; JNull] ->
  truthy V = false /\
  readJsonFile B env F serverUrlHash filename schema w = (Ok JUndefined, w1).
Proof.
  intros Hsel Hread Hin.
  assert (Hfalsy : truthy V = false).
  { cbn in Hin. destruct Hin as [<- | [<- | [<- | [<- | []]]]]; reflexivity. }
  split; [exact Hfalsy |].
  rewrite (readJsonFile_durable B env F _ _ _ schema _ _ Hsel V w1 Hread).
  now rewrite Hfalsy.
Qed.

Lemma readJsonFile_hides_falsy_values_witness :
  fst (readJson Sample.builtins Sample.env Sample.storage "abc" "tokens.json"
         (Sample.with_null_token (Sample.start 0))) = Ok JNull /\
  fst (readJsonFile Sample.builtins Sample.env Sample.no_files "abc" "tokens.json" Ok
         (Sample.with_null_token (Sample.start 0))) = Ok JUndefined.
Proof.
  split; [vm_compute; reflexivity |].
  pose (w0 := snd (getStorage Sample.env (Sample.with_null_token (Sample.start 0)))).
  assert (Hsel : getStorage Sample.env (Sample.with_null_token (Sample.start 0))
                 = (Ok (Some Sample.storage), w0)) by (vm_compute; reflexivity).
  pose (w1 := snd (readJson Sample.builtins Sample.env Sample.storage "abc" "tokens.json" w0)).
  assert (Hread : readJson Sample.builtins Sample.env Sample.storage "abc" "tokens.json" w0
                  = (Ok JNull, w1)) by (vm_compute; reflexivity).
  destruct (readJsonFile_hides_falsy_values Sample.builtins Sample.env Sample.no_files
              "abc" "tokens.json" Ok _ _ _ _ _ Hsel Hread) as [_ ->].
  - cbn. auto.
  - reflexivity.
Defined.

(** ** Write, then read *)

(** C1 on the scenario of the specification (tenant [u1], connection [c1],
    server [abc], [tokens.json], a token object), in the process as the
    modules define it: [writeJson] throws on the free identifier [prisma]
    with nothing stored and nothing cached, and the read that follows finds
    no row. *)
Example write_then_read_as_written :
  let r1 := writeJson Sample.builtins Sample.env Sample.storage "abc" "tokens.json"
              Sample.tokens (Sample.start 0) in
  let r2 := readJson Sample.builtins Sample.env Sample.storage "abc" "tokens.json" (snd r1) in
  fst r1 = Throw (ReferenceError "prisma") /\
  db (snd r1) = Sample.empty_db /\
  cache (snd r1) = ∅ /\
  fst r2 = Ok JUndefined /\
  trace (snd r2) = [Logged "Error writing tokens.json to database:" (ReferenceError "prisma");
                    Queried FindUnique TokenTable].
Proof. vm_compute. repeat split; reflexivity. Qed.

Section RoundTrip.
Context (B : Builtins) (env : ProcessEnv).

Lemma setCache_then_hit self serverUrlHash filename V w :
  V <> JNull ->
  readJson B env self serverUrlHash filename
    (set_cache (insert (getCacheKey self serverUrlHash filename) (mkEntry V (now w))) w)
  = (Ok V,
     set_cache (insert (getCacheKey self serverUrlHash filename) (mkEntry V (now w))) w).
Proof.
  intros Hnn.
  apply (readJson_hit B env self serverUrlHash filename _ (mkEntry V (now w))).
  - cbn. apply lookup_insert_eq.
  - cbn. unfold CACHE_TTL. lia.
  - exact Hnn.
Qed.

(** Where the identifier [prisma] resolves and the store serves the
    request, a write of a value that has a JSON text and is neither [null]
    nor [undefined] succeeds, and the read that follows returns the value
    from the cache. *)
Lemma write_then_read_resolved self serverUrlHash filename V text w c :
  prisma_global w = Some c ->
  outage (db w) = None ->
  JSON_stringify B V = Some text ->
  V <> JNull -> V <> JUndefined ->
  exists w1,
    writeJson B env self serverUrlHash filename V w = (Ok tt, w1) /\
    has_record self serverUrlHash filename (db w1) = true /\
    readJson B env self serverUrlHash filename w1 = (Ok V, w1).
Proof.
  intros Hres Hup Htext Hnn Hdef. unfold writeJson, writeJson_try.
  destruct (is_tokens filename) eqn:Htok; [| destruct (is_client_info filename) eqn:Hci].
  - destruct (encrypt_draws B env (JSON_stringify B V) (userId self) w) as (r & Henc & _ & Hsome).
    destruct Hsome as [ct ->]; [rewrite Htext; discriminate |].
    assert (Hprop : exists t, get_property V "token_type" = Ok t).
    { destruct V; cbn; eauto; congruence. }
    destruct Hprop as [t Hprop].
    unfold token_upsert, request, setCache. run. rewrite Henc. cbn. rewrite Hres, Hprop. cbn.
    rewrite Hup. cbn. eexists. split; [reflexivity |]. split.
    + unfold has_record. rewrite Htok. cbn. apply bool_decide_eq_true.
      rewrite lookup_insert_eq. eauto.
    + match goal with |- readJson _ _ _ _ _ (set_cache _ ?w0) = _ =>
        apply (setCache_then_hit self serverUrlHash filename V w0 Hnn) end.
  - unfold clientInfo_upsert, request, setCache. run. rewrite Hres, Htext. cbn.
    rewrite Hup. cbn. eexists. split; [reflexivity |]. split.
    + unfold has_record. rewrite Htok, Hci. cbn. apply bool_decide_eq_true.
      rewrite lookup_insert_eq. eauto.
    + match goal with |- readJson _ _ _ _ _ (set_cache _ ?w0) = _ =>
        apply (setCache_then_hit self serverUrlHash filename V w0 Hnn) end.
  - unfold storage_upsert, request, setCache. run. rewrite Hres, Htext. cbn.
    rewrite Hup. cbn. eexists. split; [reflexivity |]. split.
    + unfold has_record. rewrite Htok, Hci. cbn. apply bool_decide_eq_true.
      rewrite lookup_insert_eq. eauto.
    + match goal with |- readJson _ _ _ _ _ (set_cache _ ?w0) = _ =>
        apply (setCache_then_hit self serverUrlHash filename V w0 Hnn) end.
Qed.
End RoundTrip.

Lemma write_then_read_resolved_witness :
  exists w1,
    writeJson Sample.builtins Sample.env Sample.storage "abc" "tokens.json" Sample.tokens
      (Sample.with_global_prisma (Sample.start 0)) = (Ok tt, w1) /\
    readJson Sample.builtins Sample.env Sample.storage "abc" "tokens.json" w1
    = (Ok Sample.tokens, w1).
Proof.
  destruct (write_then_read_resolved Sample.builtins Sample.env Sample.storage
              "abc" "tokens.json" Sample.tokens _
              (Sample.with_global_prisma (Sample.start 0)) _ eq_refl eq_refl eq_refl)
    as (w1 & Hw & _ & Hr); [discriminate | discriminate |].
  exists w1. split; assumption.
Defined.

(** The sample cipher reads back what it wrote. *)
Lemma sample_gcm_reads_back : gcm_reads_back Sample.builtins.
Proof.
  intros key iv text Hiv. cbn. split.
  - unfold Sample.gcm_init. destruct iv; [discriminate | reflexivity].
  - unfold Sample.gcm_decrypt. rewrite String.eqb_refl.
    now rewrite string_of_list_byte_of_string.
Qed.

Lemma decrypt_encrypt_witness :
  exists c,
    encrypt Sample.builtins Sample.env (Some "t") "u1" (Sample.start 0)
    = (Ok c, set_drawn S (Sample.start 0)) /\
    length (split colon c) = 3%nat /\
    decrypt Sample.builtins Sample.env c "u1" = Ok "t".
Proof.
  apply (decrypt_encrypt Sample.builtins Sample.env "t" "u1" (Sample.start 0)
           sample_gcm_reads_back eq_refl).
Defined.


Lemma decrypt_field_count_witness :
  (exists e, decrypt Sample.builtins Sample.env "2a2a:31756e6f" "u1" = Throw e) /\
  decrypt Sample.builtins Sample.env
    ("2a2a2a2a2a2a2a2a2a2a2a2a2a2a2a2a:31756e6f69746375646f72702d6e692d:74" +:+ ":" +:+ "00")
    "u1"
  = decrypt Sample.builtins Sample.env
      "2a2a2a2a2a2a2a2a2a2a2a2a2a2a2a2a:31756e6f69746375646f72702d6e692d:74" "u1".
Proof.
  split.
  - apply (decrypt_field_count Sample.builtins Sample.env "2a2a:31756e6f" "u1").
    vm_compute. lia.
  - apply (decrypt_field_count Sample.builtins Sample.env
             "2a2a2a2a2a2a2a2a2a2a2a2a2a2a2a2a:31756e6f69746375646f72702d6e692d:74" "u1").
    vm_compute. lia.
Defined.


(** * Further properties of the adapter and of the client module *)

(** ** Cache keys *)

Lemma append_colon_free_inj (u u' r r' : string) :
  colon_free u = true -> colon_free u' = true ->
  u +:+ String colon r = u' +:+ String colon r' ->
  u = u' /\ r = r'.
Proof.
  revert u'. induction u as [| a u IH]; intros [| a' u'] Hu Hu'; simpl in *.
  - intros [= ->]. auto.
  - intros [= <- _]. rewrite Ascii.eqb_refl in Hu'. discriminate.
  - intros [= -> _]. rewrite Ascii.eqb_refl in Hu. discriminate.
  - intros [= <- Heq].
    apply andb_true_iff in Hu as [_ Hu], Hu' as [_ Hu'].
    destruct (IH u' Hu Hu' Heq) as [-> ->]. auto.
Qed.

(** The cache key tells tenants and addresses apart as long as the user id,
    the connection id and the server hash have no colon in them: two
    instances and addresses with the same key are then the same in every
    component.  The filename may hold any character. *)
Theorem getCacheKey_injective (self self' : DatabaseStorage)
    (serverUrlHash serverUrlHash' filename filename' : string) :
  colon_free (userId self) = true -> colon_free (userId self') = true ->
  colon_free (connectionId self) = true -> colon_free (connectionId self') = true ->
  colon_free serverUrlHash = true -> colon_free serverUrlHash' = true ->
  getCacheKey self serverUrlHash filename = getCacheKey self' serverUrlHash' filename' ->
  userId self = userId self' /\ connectionId self = connectionId self' /\
  serverUrlHash = serverUrlHash' /\ filename = filename'.
Proof.
  intros Hu Hu' Hc Hc' Hh Hh' Hkey. unfold getCacheKey in Hkey.
  assert (Hk : forall a b c d : string,
             a +:+ ":" +:+ b +:+ ":" +:+ c +:+ ":" +:+ d
             = a +:+ String colon (b +:+ String colon (c +:+ String colon d)))
    by reflexivity.
  rewrite !Hk in Hkey.
  destruct (append_colon_free_inj _ _ _ _ Hu Hu' Hkey) as [Hu1 Hkey1].
  destruct (append_colon_free_inj _ _ _ _ Hc Hc' Hkey1) as [Hc1 Hkey2].
  destruct (append_colon_free_inj _ _ _ _ Hh Hh' Hkey2) as [Hh1 Hf].
  auto.
Qed.

Lemma getCacheKey_injective_witness :
  getCacheKey (mkStorage 0 "u1" "c1") "abc" "tokens.json"
  = getCacheKey (mkStorage 1 "u1" "c1") "abc" "tokens.json" /\
  "tokens.json" = "tokens.json".
Proof.
  split; [reflexivity |].
  apply (getCacheKey_injective (mkStorage 0 "u1" "c1") (mkStorage 1 "u1" "c1")
           "abc" "abc" "tokens.json" "tokens.json"); reflexivity.
Defined.

(** With a colon in an id the key no longer tells tenants apart. *)
Example getCacheKey_collision :
  getCacheKey (mkStorage 0 "a:b" "c") "h" "tokens.json"
  = getCacheKey (mkStorage 0 "a" "b:c") "h" "tokens.json".
Proof. reflexivity. Qed.

(** ** What an operation leaves alone *)

Section Frames.
Context {S : Type} (proj : World -> S) (R : S -> S -> Prop) `{!PreOrder R}.

Lemma preserves_ret {A} (a : A) : preserves proj R (ret a).
Proof. intros w. reflexivity. Qed.

Lemma preserves_throw {A} (e : JsError) : preserves proj R (@throw A e).
Proof. intros w. reflexivity. Qed.

Lemma preserves_lift {A} (r : Result A) : preserves proj R (lift r).
Proof. intros w. reflexivity. Qed.

Lemma preserves_bind {A C} (m : M A) (k : A -> M C) :
  preserves proj R m -> (forall a, preserves proj R (k a)) -> preserves proj R (bind m k).
Proof.
  intros Hm Hk w. unfold bind. specialize (Hm w).
  destruct (m w) as [[a | e] w1]; cbn in *; [| exact Hm].
  etransitivity; [exact Hm | apply Hk].
Qed.

Lemma preserves_try_catch {A} (body : M A) (handler : JsError -> M A) :
  preserves proj R body -> (forall e, preserves proj R (handler e)) ->
  preserves proj R (try_catch body handler).
Proof.
  intros Hm Hk w. unfold try_catch. specialize (Hm w).
  destruct (body w) as [[a | e] w1]; cbn in *; [exact Hm |].
  etransitivity; [exact Hm | apply Hk].
Qed.
End Frames.

#[local] Instance cache_agree_off_preorder key : PreOrder (cache_agree_off key).
Proof.
  split.
  - intros c k _. reflexivity.
  - intros c1 c2 c3 H12 H23 k Hk. rewrite (H23 k Hk). now apply H12.
Qed.

#[local] Instance db_agree_off_preorder self serverUrlHash filename :
  PreOrder (db_agree_off self serverUrlHash filename).
Proof.
  split.
  - intros d. repeat split; reflexivity.
  - intros d1 d2 d3 (Ho & Hl & Ht & Hc & Hs) (Ho' & Hl' & Ht' & Hc' & Hs').
    split; [congruence |]. split; [congruence |]. split; [| split].
    + intros k Hk. rewrite (Ht' k Hk). now apply Ht.
    + intros k Hk. rewrite (Hc' k Hk). now apply Hc.
    + intros k Hk. rewrite (Hs' k Hk). now apply Hs.
Qed.

(** Splits a computation along its binds, handlers and branches (keeping
    the equation of each branch), and runs a leaf that leaves the part of
    the world alone. *)
Ltac frame :=
  repeat match goal with
         | |- preserves _ _ (bind _ _) => apply preserves_bind; [typeclasses eauto | | intros ?]
         | |- preserves _ _ (try_catch _ _) =>
             apply preserves_try_catch; [typeclasses eauto | | intros ?]
         | |- preserves _ _ (if ?b then _ else _) => destruct b eqn:?
         | |- preserves _ _ (match ?x with _ => _ end) => destruct x eqn:?
         | |- preserves _ _ _ => solve [auto with frame]
         | |- preserves _ _ _ =>
             let w := fresh "w" in
             intros w;
             unfold getPrismaClient, request, free_prisma, randomBytes16, log, Date_now,
               required, parseAsync, ret, throw, lift;
             cbn;
             repeat match goal with
                    | |- context [match ?x with _ => _ end] => destruct x
                    end;
             cbn; reflexivity
         end.

Create HintDb frame.

(** *** The cache *)

Lemma setCache_one_key key d : preserves cache (cache_agree_off key) (setCache key d).
Proof.
  intros w k Hk. unfold setCache. run. cbn. now apply lookup_insert_ne.
Qed.

Lemma getFromCache_one_key key : preserves cache (cache_agree_off key) (getFromCache key).
Proof.
  intros w k Hk. unfold getFromCache.
  destruct (cache w !! key) as [cached |];
    [destruct (now w - timestamp cached <? CACHE_TTL) |]; cbn;
    try reflexivity; now apply lookup_delete_ne.
Qed.

Lemma uncache_one_key key :
  preserves cache (cache_agree_off key)
    (fun w => (Ok tt, set_cache (delete key) w) : Result unit * World).
Proof. intros w k Hk. cbn. now apply lookup_delete_ne. Qed.

#[local] Hint Resolve setCache_one_key getFromCache_one_key uncache_one_key : frame.

Section CacheFrame.
Context (B : Builtins) (env : ProcessEnv).


Lemma writeJson_one_key self serverUrlHash filename d :
  preserves cache (cache_agree_off (getCacheKey self serverUrlHash filename))
    (writeJson B env self serverUrlHash filename d).
Proof.
  unfold writeJson, writeJson_try, token_upsert, clientInfo_upsert, storage_upsert, encrypt.
  frame.
Qed.

Lemma delete_one_key self serverUrlHash filename :
  preserves cache (cache_agree_off (getCacheKey self serverUrlHash filename))
    (delete_ self serverUrlHash filename).
Proof.
  unfold delete_, delete_try, token_delete, clientInfo_delete, storage_delete.
  frame.
Qed.

End CacheFrame.



(** *** The record store *)

Lemma table_of_tokens filename : is_tokens filename = true -> table_of filename = TokenTable.
Proof. unfold table_of. now intros ->. Qed.

Lemma table_of_client_info filename :
  is_tokens filename = false -> is_client_info filename = true ->
  table_of filename = ClientInfoTable.
Proof. unfold table_of. now intros -> ->. Qed.

Lemma table_of_storage filename :
  is_tokens filename = false -> is_client_info filename = false ->
  table_of filename = StorageTable.
Proof. unfold table_of. now intros -> ->. Qed.

Section StoreFrame.
Context (self : DatabaseStorage) (serverUrlHash filename : string).

Let R := db_agree_off self serverUrlHash filename.

Lemma token_row_changed (f : gmap (string * string * string) TokenRow ->
                             gmap (string * string * string) TokenRow) (d : Database) :
  is_tokens filename = true ->
  (forall m k, k <> (userId self, connectionId self, serverUrlHash) -> f m !! k = m !! k) ->
  R d (set_tokens f d).
Proof.
  intros Htok Hf. unfold R, db_agree_off. rewrite (table_of_tokens _ Htok). cbn.
  repeat split; try reflexivity. intros k Hk. apply Hf. now apply Hk.
Qed.

Lemma clientInfo_row_changed (f : gmap string ClientInfoRow -> gmap string ClientInfoRow)
    (d : Database) :
  is_tokens filename = false -> is_client_info filename = true ->
  (forall m k, k <> serverUrlHash -> f m !! k = m !! k) ->
  R d (set_clientInfos f d).
Proof.
  intros Htok Hci Hf. unfold R, db_agree_off. rewrite (table_of_client_info _ Htok Hci). cbn.
  repeat split; try reflexivity. intros k Hk. apply Hf. now apply Hk.
Qed.

Lemma storage_row_changed (f : gmap (string * string * string) StorageRow ->
                               gmap (string * string * string) StorageRow) (d : Database) :
  is_tokens filename = false -> is_client_info filename = false ->
  (forall m k, k <> (userId self, connectionId self, serverUrlHash +:+ "_" +:+ filename) ->
               f m !! k = m !! k) ->
  R d (set_storages f d).
Proof.
  intros Htok Hci Hf. unfold R, db_agree_off. rewrite (table_of_storage _ Htok Hci). cbn.
  repeat split; try reflexivity. intros k Hk. apply Hf. now apply Hk.
Qed.

Lemma token_upsert_one_row c create update :
  is_tokens filename = true ->
  preserves db R (token_upsert c (userId self, connectionId self, serverUrlHash) create update).
Proof.
  intros Htok w. unfold token_upsert, request, bind.
  destruct (outage (db w)); cbn; [reflexivity |].
  apply token_row_changed; [exact Htok |]. intros m k Hk. now apply lookup_insert_ne.
Qed.

Lemma clientInfo_upsert_one_row c create update :
  is_tokens filename = false -> is_client_info filename = true ->
  preserves db R (clientInfo_upsert c serverUrlHash create update).
Proof.
  intros Htok Hci w. unfold clientInfo_upsert, request, bind.
  destruct (outage (db w)); cbn; [reflexivity |].
  apply clientInfo_row_changed; [exact Htok | exact Hci |].
  intros m k Hk. now apply lookup_insert_ne.
Qed.

Lemma storage_upsert_one_row c create update :
  is_tokens filename = false -> is_client_info filename = false ->
  preserves db R (storage_upsert c
    (userId self, connectionId self, serverUrlHash +:+ "_" +:+ filename) create update).
Proof.
  intros Htok Hci w. unfold storage_upsert, request, bind.
  destruct (outage (db w)); cbn; [reflexivity |].
  apply storage_row_changed; [exact Htok | exact Hci |].
  intros m k Hk. now apply lookup_insert_ne.
Qed.

Lemma token_delete_one_row c :
  is_tokens filename = true ->
  preserves db R (token_delete c (userId self, connectionId self, serverUrlHash)).
Proof.
  intros Htok w. unfold token_delete, request, bind.
  destruct (outage (db w)); cbn; [reflexivity |].
  destruct (mCPRemoteToken (db w) !! _); cbn; [| reflexivity].
  apply token_row_changed; [exact Htok |]. intros m k Hk. now apply lookup_delete_ne.
Qed.

Lemma clientInfo_delete_one_row c :
  is_tokens filename = false -> is_client_info filename = true ->
  preserves db R (clientInfo_delete c serverUrlHash).
Proof.
  intros Htok Hci w. unfold clientInfo_delete, request, bind.
  destruct (outage (db w)); cbn; [reflexivity |].
  destruct (mCPRemoteClientInfo (db w) !! _); cbn; [| reflexivity].
  apply clientInfo_row_changed; [exact Htok | exact Hci |].
  intros m k Hk. now apply lookup_delete_ne.
Qed.

Lemma storage_delete_one_row c :
  is_tokens filename = false -> is_client_info filename = false ->
  preserves db R (storage_delete c
    (userId self, connectionId self, serverUrlHash +:+ "_" +:+ filename)).
Proof.
  intros Htok Hci w. unfold storage_delete, request, bind.
  destruct (outage (db w)); cbn; [reflexivity |].
  destruct (mCPRemoteStorage (db w) !! _); cbn; [| reflexivity].
  apply storage_row_changed; [exact Htok | exact Hci |].
  intros m k Hk. now apply lookup_delete_ne.
Qed.
End StoreFrame.

#[local] Hint Resolve token_upsert_one_row clientInfo_upsert_one_row storage_upsert_one_row
  token_delete_one_row clientInfo_delete_one_row storage_delete_one_row : frame.

Section StoreFrameOps.
Context (B : Builtins) (env : ProcessEnv).

Lemma writeJson_one_row self serverUrlHash filename d :
  preserves db (db_agree_off self serverUrlHash filename)
    (writeJson B env self serverUrlHash filename d).
Proof. unfold writeJson, writeJson_try, encrypt, setCache. frame. Qed.

Lemma delete_one_row self serverUrlHash filename :
  preserves db (db_agree_off self serverUrlHash filename)
    (delete_ self serverUrlHash filename).
Proof. unfold delete_, delete_try. frame. Qed.

Lemma readJson_keeps_db self serverUrlHash filename :
  preserves db eq (readJson B env self serverUrlHash filename).
Proof.
  unfold readJson, readJson_fetch, readJson_try, getFromCache, setCache,
    token_findUnique, clientInfo_findUnique, storage_findUnique.
  frame.
Qed.

Lemma readText_keeps_db self serverUrlHash filename :
  preserves db eq (readText B env self serverUrlHash filename).
Proof.
  unfold readText. apply preserves_bind; [typeclasses eauto | apply readJson_keeps_db |].
  intros d. frame.
Qed.

Lemma getPrismaClient_keeps_db : preserves db eq (getPrismaClient env).
Proof. frame. Qed.

Lemma getStorage_keeps_db : preserves db eq (getStorage env).
Proof.
  intros w. unfold getStorage.
  destruct (negb (DB_MODE env) || _ || _); [reflexivity |].
  destruct (storageInstance w); reflexivity.
Qed.
End StoreFrameOps.

(** Reading never writes to the record store: after [readJson] or
    [readText], and in durable mode after the exported [readJsonFile] or
    [readTextFile], every table is what it was, whether the read was served
    from the cache, from the store, or failed. *)
Theorem reads_never_write_the_store (B : Builtins) (env : ProcessEnv) (F : FileConfig)
    (self : DatabaseStorage) (serverUrlHash filename : string) (schema : Schema)
    (errorMessage : option string) (w : World) :
  db (snd (readJson B env self serverUrlHash filename w)) = db w /\
  db (snd (readText B env self serverUrlHash filename w)) = db w /\
  (forall storage w0,
     getStorage env w = (Ok (Some storage), w0) ->
     db (snd (readJsonFile B env F serverUrlHash filename schema w)) = db w /\
     db (snd (readTextFile B env F serverUrlHash filename errorMessage w)) = db w).
Proof.
  split; [symmetry; apply (readJson_keeps_db B env) |].
  split; [symmetry; apply (readText_keeps_db B env) |].
  intros storage w0 Hsel.
  assert (Hdb : db w0 = db w).
  { pose proof (getStorage_keeps_db env w) as H. rewrite Hsel in H. now symmetry. }
  split.
  - unfold readJsonFile. unfold bind at 1. rewrite Hsel, <- Hdb. symmetry.
    apply (preserves_try_catch db eq); [| intros e; frame].
    apply preserves_bind; [typeclasses eauto | apply readJson_keeps_db |].
    intros d. frame.
  - unfold readTextFile. unfold bind at 1. rewrite Hsel, <- Hdb. symmetry.
    apply (preserves_try_catch db eq); [apply readText_keeps_db | intros e; frame].
Qed.

(** Tenants do not write to each other's token rows and generic rows: a
    [writeJson], [writeText] or [delete] of one instance, whatever the
    address and the outcome, leaves every row of [mCPRemoteToken] and of
    [mCPRemoteStorage] that is keyed by another user id or connection id as
    it was. *)
Theorem other_tenants_rows_untouched (B : Builtins) (env : ProcessEnv)
    (self : DatabaseStorage) (serverUrlHash filename : string) (d : JsValue) (text : string)
    (w : World) (user connection key : string) :
  user <> userId self \/ connection <> connectionId self ->
  (mCPRemoteToken (db (snd (writeJson B env self serverUrlHash filename d w)))
     !! (user, connection, key) = mCPRemoteToken (db w) !! (user, connection, key) /\
   mCPRemoteStorage (db (snd (writeJson B env self serverUrlHash filename d w)))
     !! (user, connection, key) = mCPRemoteStorage (db w) !! (user, connection, key)) /\
  (mCPRemoteToken (db (snd (writeText B env self serverUrlHash filename text w)))
     !! (user, connection, key) = mCPRemoteToken (db w) !! (user, connection, key) /\
   mCPRemoteStorage (db (snd (writeText B env self serverUrlHash filename text w)))
     !! (user, connection, key) = mCPRemoteStorage (db w) !! (user, connection, key)) /\
  (mCPRemoteToken (db (snd (delete_ self serverUrlHash filename w)))
     !! (user, connection, key) = mCPRemoteToken (db w) !! (user, connection, key) /\
   mCPRemoteStorage (db (snd (delete_ self serverUrlHash filename w)))
     !! (user, connection, key) = mCPRemoteStorage (db w) !! (user, connection, key)).
Proof.
  intros Hother.
  assert (Hne : forall k', (user, connection, key) <> (userId self, connectionId self, k')).
  { intros k' [= -> -> _]. destruct Hother; congruence. }
  assert (Hrows : forall d0 d1,
             db_agree_off self serverUrlHash filename d0 d1 ->
             mCPRemoteToken d1 !! (user, connection, key)
             = mCPRemoteToken d0 !! (user, connection, key) /\
             mCPRemoteStorage d1 !! (user, connection, key)
             = mCPRemoteStorage d0 !! (user, connection, key)).
  { intros d0 d1 (_ & _ & Ht & _ & Hs). split; [apply Ht | apply Hs]; intros _; apply Hne. }
  split; [| split]; apply Hrows.
  - apply (writeJson_one_row B env).
  - apply (writeJson_one_row B env self serverUrlHash filename (JString text)).
  - apply delete_one_row.
Qed.

Lemma other_tenants_rows_untouched_witness :
  mCPRemoteToken
    (db (snd (delete_ (mkStorage 1 "u2" "c1") "abc" "tokens.json"
                (Sample.with_global_prisma (Sample.with_null_token (Sample.start 0))))))
    !! ("u1", "c1", "abc")
  = Some Sample.null_token_row.
Proof.
  destruct (other_tenants_rows_untouched Sample.builtins Sample.env (mkStorage 1 "u2" "c1")
              "abc" "tokens.json" JNull ""
              (Sample.with_global_prisma (Sample.with_null_token (Sample.start 0)))
              "u1" "c1" "abc") as (_ & _ & Hdel & _); [left; discriminate |].
  rewrite Hdel. reflexivity.
Defined.

(** ** Writes that reach the record store *)

(** Gives the world and the stored text of a successful write, and closes
    the conjuncts that hold by computation. *)
Ltac exists_w1 stored :=
  eexists; exists stored; split; [reflexivity |];
  cbn; split; [| split; [| repeat split]]; try reflexivity; try assumption.

Section ResolvedWrites.
Context (B : Builtins) (env : ProcessEnv).

(** A write with the identifier [prisma] resolved and the store serving:
    what is stored, what is cached, and what else changes. *)
Lemma writeJson_resolved_effect self serverUrlHash filename V text w c :
  prisma_global w = Some c ->
  outage (db w) = None ->
  JSON_stringify B V = Some text ->
  (is_tokens filename = true -> exists t, get_property V "token_type" = Ok t) ->
  exists w1 stored,
    writeJson B env self serverUrlHash filename V w = (Ok tt, w1) /\
    stored_text self serverUrlHash filename (db w1) = Some stored /\
    (if is_tokens filename
     then encrypt B env (Some text) (userId self) w = (Ok stored, set_drawn S w)
     else stored = text) /\
    cache w1 = <[getCacheKey self serverUrlHash filename := mkEntry V (now w1)]> (cache w) /\
    now w1 = now w + latency (db w) /\
    prisma_global w1 = Some c /\
    prisma_module w1 = prisma_module w /\
    outage (db w1) = None /\
    trace w1 = (trace w ++ [Queried Upsert (table_of filename)])%list.
Proof.
  intros Hres Hup Htext Hprop. unfold writeJson, writeJson_try, stored_text, table_of.
  destruct (is_tokens filename) eqn:Htok; [| destruct (is_client_info filename) eqn:Hci].
  - destruct (encrypt_draws B env (JSON_stringify B V) (userId self) w)
      as (r & Henc & _ & Hsome).
    destruct Hsome as [ct ->]; [rewrite Htext; discriminate |].
    destruct (Hprop eq_refl) as [t Ht].
    unfold token_upsert, request, setCache. run. rewrite Henc. cbn. rewrite Hres, Ht. cbn.
    rewrite Hup. cbn. rewrite Htext in Henc.
    exists_w1 ct.
    rewrite lookup_insert_eq. cbn.
    destruct (mCPRemoteToken (db w) !! _); reflexivity.
  - unfold clientInfo_upsert, request, setCache. run. rewrite Hres, Htext. cbn.
    rewrite Hup. cbn.
    exists_w1 text.
    rewrite lookup_insert_eq. cbn.
    destruct (mCPRemoteClientInfo (db w) !! _); reflexivity.
  - unfold storage_upsert, request, setCache. run. rewrite Hres, Htext. cbn.
    rewrite Hup. cbn.
    exists_w1 text.
    rewrite lookup_insert_eq. cbn.
    destruct (mCPRemoteStorage (db w) !! _); reflexivity.
Qed.
End ResolvedWrites.

(** ** Reads that reach the record store *)

Lemma is_tokens_eq filename : is_tokens filename = true -> filename = "tokens.json".
Proof. unfold is_tokens. now intros H%String.eqb_eq. Qed.

Lemma getPrismaClient_cases (env : ProcessEnv) (w : World) :
  match prisma_module w with
  | Some c => getPrismaClient env w = (Ok c, w)
  | None =>
      if str_truthy (env_DATABASE_URL env)
      then getPrismaClient env w
           = (Ok (mkClient (str_or (env_DATABASE_URL env) "")),
              set_prisma_module (Some (mkClient (str_or (env_DATABASE_URL env) ""))) w)
      else getPrismaClient env w
           = (Throw (Error "DATABASE_URL is required for database storage mode"), w)
  end.
Proof.
  unfold getPrismaClient. destruct (prisma_module w); [reflexivity |].
  destruct (str_truthy (env_DATABASE_URL env)); reflexivity.
Qed.

Section ResolvedReads.
Context (B : Builtins) (env : ProcessEnv).

(** The fetch of any file but [tokens.json], with the identifier [prisma]
    resolved, stage by stage. *)
Lemma readJson_fetch_resolved self serverUrlHash filename cacheKey w c :
  is_tokens filename = false ->
  prisma_global w = Some c ->
  readJson_fetch B env self serverUrlHash filename cacheKey w =
  let msg := "Error reading " +:+ filename +:+ " from database:" in
  let w2 := sent FindUnique (table_of filename) w in
  match outage (db w) with
  | Some e => (Ok JUndefined, emit (Logged msg e) w2)
  | None =>
      match stored_text self serverUrlHash filename (db w) with
      | None => (Ok JUndefined, w2)
      | Some text =>
          match JSON_parse B text with
          | Throw e => (Ok JUndefined, emit (Logged msg e) w2)
          | Ok d => (Ok d, set_cache (insert cacheKey (mkEntry d (now w2))) w2)
          end
      end
  end.
Proof.
  intros Htok Hres. unfold readJson_fetch, readJson_try, stored_text, table_of, sent.
  rewrite Htok. destruct (is_client_info filename);
    unfold clientInfo_findUnique, storage_findUnique, request, setCache; run;
    rewrite Hres; cbn; (destruct (outage (db w)) as [e |]; [reflexivity |]); cbn.
  - destruct (mCPRemoteClientInfo (db w) !! _) as [record |]; cbn; [| reflexivity].
    destruct (JSON_parse B (clientData record)); reflexivity.
  - destruct (mCPRemoteStorage (db w) !! _) as [record |]; cbn; [| reflexivity].
    destruct (JSON_parse B (value record)); reflexivity.
Qed.

(** The same for [tokens.json], once [getPrismaClient] has returned. *)
Lemma readJson_fetch_tokens_stored self serverUrlHash cacheKey w c w1 :
  getPrismaClient env w = (Ok c, w1) ->
  readJson_fetch B env self serverUrlHash "tokens.json" cacheKey w =
  let msg := "Error reading tokens.json from database:" in
  let w2 := sent FindUnique TokenTable w1 in
  match outage (db w1) with
  | Some e => (Ok JUndefined, emit (Logged msg e) w2)
  | None =>
      match stored_text self serverUrlHash "tokens.json" (db w1) with
      | None => (Ok JUndefined, w2)
      | Some text =>
          match decrypt B env text (userId self) with
          | Throw e => (Ok JUndefined, emit (Logged msg e) w2)
          | Ok decrypted =>
              match JSON_parse B decrypted with
              | Throw e => (Ok JUndefined, emit (Logged msg e) w2)
              | Ok d => (Ok d, set_cache (insert cacheKey (mkEntry d (now w2))) w2)
              end
          end
      end
  end.
Proof.
  intros Hclient. rewrite (readJson_fetch_tokens B env self serverUrlHash _ w c w1 Hclient).
  unfold stored_text, sent. change (is_tokens "tokens.json") with true. cbn zeta iota.
  destruct (outage (db w1)); [reflexivity |].
  destruct (mCPRemoteToken (db w1) !! _); reflexivity.
Qed.

(** A fetch returns [undefined], or the value it has just cached. *)
Lemma readJson_fetch_shape self serverUrlHash filename cacheKey w d w1 :
  readJson_fetch B env self serverUrlHash filename cacheKey w = (Ok d, w1) ->
  d = JUndefined \/
  exists w2, w1 = set_cache (insert cacheKey (mkEntry d (now w2))) w2.
Proof.
  destruct (is_tokens filename) eqn:Htok.
  - apply is_tokens_eq in Htok. subst filename.
    destruct (getPrismaClient env w) as [[c | e] w0] eqn:Hclient.
    + rewrite (readJson_fetch_tokens_stored self serverUrlHash cacheKey w c w0 Hclient).
      cbn zeta.
      repeat match goal with
             | |- context [match ?x with _ => _ end] => destruct x
             end; intros [= <- <-];
        first [now left | right; eexists (sent FindUnique _ _); reflexivity].
    + rewrite (readJson_fetch_tokens_no_client B env self serverUrlHash cacheKey w e w0 Hclient).
      intros [= <- <-]. auto.
  - destruct (prisma_global w) as [c |] eqn:Hres.
    + rewrite (readJson_fetch_resolved self serverUrlHash filename cacheKey w c Htok Hres).
      cbn zeta.
      repeat match goal with
             | |- context [match ?x with _ => _ end] => destruct x
             end; intros [= <- <-];
        first [now left | right; eexists (sent FindUnique _ _); reflexivity].
    + rewrite (readJson_fetch_unbound B env self serverUrlHash filename cacheKey w Hres Htok).
      intros [= <- <-]. auto.
Qed.
End ResolvedReads.

(** A read that returned a value other than [undefined] and [null] can be
    repeated at once: the second [readJson] returns the same value from the
    cache, sends no request and changes nothing. *)
Theorem readJson_repeats_from_cache (B : Builtins) (env : ProcessEnv) (self : DatabaseStorage)
    (serverUrlHash filename : string) (w : World) (d : JsValue) (w1 : World) :
  readJson B env self serverUrlHash filename w = (Ok d, w1) ->
  d <> JUndefined -> d <> JNull ->
  readJson B env self serverUrlHash filename w1 = (Ok d, w1).
Proof.
  intros Hread Hdef Hnn. unfold readJson, bind in Hread.
  destruct (getFromCache (getCacheKey self serverUrlHash filename) w) as [[v | e] w0] eqn:Hget;
    [| discriminate].
  destruct (not_null v) eqn:Hv.
  - injection Hread as <- <-.
    assert (Hsame : w0 = w).
    { unfold getFromCache in Hget. destruct (cache w !! _) as [cached |];
        [destruct (now w - timestamp cached <? CACHE_TTL) |];
        injection Hget as <- <-; [reflexivity | discriminate | discriminate]. }
    subst w0. unfold readJson, bind. rewrite Hget, Hv. reflexivity.
  - destruct (readJson_fetch_shape B env _ _ _ _ _ _ _ Hread) as [-> | [w2 ->]];
      [congruence |].
    now apply setCache_then_hit.
Qed.

Lemma readJson_repeats_from_cache_witness :
  exists w1,
    readJson Sample.builtins Sample.env Sample.storage "abc" "tokens.json"
      (Sample.with_empty_string_token (Sample.start 0)) = (Ok (JString ""), w1) /\
    readJson Sample.builtins Sample.env Sample.storage "abc" "tokens.json" w1
    = (Ok (JString ""), w1).
Proof.
  eexists. split; [vm_compute; reflexivity |].
  apply (readJson_repeats_from_cache Sample.builtins Sample.env Sample.storage
           "abc" "tokens.json" (Sample.with_empty_string_token (Sample.start 0)));
    [vm_compute; reflexivity | discriminate | discriminate].
Defined.

(** ** Through the record store and back *)

Lemma stored_text_without self serverUrlHash filename (d : Database) :
  stored_text self serverUrlHash filename (without_record self serverUrlHash filename d) = None.
Proof.
  unfold stored_text, without_record.
  destruct (is_tokens filename); [| destruct (is_client_info filename)];
    cbn; now rewrite lookup_delete_eq.
Qed.

Section StoreRoundTrip.
Context (B : Builtins) (env : ProcessEnv).

(** What [readJson] returns once the entry of its address has expired, from
    the text stored for the address. *)
Lemma readJson_expired_from_store self serverUrlHash filename w c cached text V :
  cache w !! getCacheKey self serverUrlHash filename = Some cached ->
  CACHE_TTL <= now w - timestamp cached ->
  prisma_global w = Some c ->
  outage (db w) = None ->
  is_tokens filename = false ->
  stored_text self serverUrlHash filename (db w) = Some text ->
  JSON_parse B text = Ok V ->
  exists w2,
    readJson B env self serverUrlHash filename w = (Ok V, w2) /\
    trace w2 = (trace w ++ [Queried FindUnique (table_of filename)])%list.
Proof.
  intros Hget Hold Hres Hup Htok Hstored Hparse.
  rewrite (readJson_expired B env self serverUrlHash filename w cached Hget Hold).
  rewrite (readJson_fetch_resolved B env self serverUrlHash filename _ _ c Htok);
    [| exact Hres].
  cbn zeta. cbn [db set_cache]. rewrite Hup, Hstored, Hparse.
  eexists. split; reflexivity.
Qed.

Lemma readJson_expired_tokens_from_store self serverUrlHash w cached ct text V :
  cache w !! getCacheKey self serverUrlHash "tokens.json" = Some cached ->
  CACHE_TTL <= now w - timestamp cached ->
  str_truthy (env_DATABASE_URL env) = true ->
  outage (db w) = None ->
  stored_text self serverUrlHash "tokens.json" (db w) = Some ct ->
  decrypt B env ct (userId self) = Ok text ->
  JSON_parse B text = Ok V ->
  exists w2,
    readJson B env self serverUrlHash "tokens.json" w = (Ok V, w2) /\
    trace w2 = (trace w ++ [Queried FindUnique TokenTable])%list.
Proof.
  intros Hget Hold Hurl Hup Hstored Hdec Hparse.
  rewrite (readJson_expired B env self serverUrlHash "tokens.json" w cached Hget Hold).
  set (w0 := set_cache (delete (getCacheKey self serverUrlHash "tokens.json")) w).
  assert (Hclient : exists c w1, getPrismaClient env w0 = (Ok c, w1) /\
                                 db w1 = db w /\ trace w1 = trace w).
  { pose proof (getPrismaClient_cases env w0) as H.
    destruct (prisma_module w0); [eauto |]. rewrite Hurl in H. eauto. }
  destruct Hclient as (c & w1 & Hclient & Hdb & Htrace).
  rewrite (readJson_fetch_tokens_stored B env self serverUrlHash _ w0 c w1 Hclient).
  cbn zeta. rewrite Hdb, Hup, Hstored, Hdec, Hparse.
  eexists. split; [reflexivity |]. cbn. now rewrite Htrace.
Qed.
End StoreRoundTrip.

(** A value written with [writeJson] is read back from the record store
    once its cache entry has expired.  The identifier [prisma] resolves, the
    store serves, [JSON.parse] inverts [JSON.stringify] on the value; for
    [tokens.json] moreover the value has a [token_type] to read, the AEAD
    reads back its own output and [DATABASE_URL] is set.  Then [writeJson]
    succeeds, and at any time 5000 ms or more after the write [readJson]
    returns the value, by one [findUnique] on the table of the filename. *)
Theorem write_then_read_after_expiry (B : Builtins) (env : ProcessEnv)
    (self : DatabaseStorage) (serverUrlHash filename : string) (V : JsValue) (text : string)
    (w : World) (c : PrismaClient) :
  prisma_global w = Some c ->
  outage (db w) = None ->
  JSON_stringify B V = Some text ->
  JSON_parse B text = Ok V ->
  (is_tokens filename = true ->
   (exists t, get_property V "token_type" = Ok t) /\ gcm_reads_back B /\
   length (entropy w (drawn w)) = 16%nat /\ str_truthy (env_DATABASE_URL env) = true) ->
  exists w1,
    writeJson B env self serverUrlHash filename V w = (Ok tt, w1) /\
    forall t,
      CACHE_TTL <= t - now w1 ->
      exists w2,
        readJson B env self serverUrlHash filename (set_now (fun _ => t) w1) = (Ok V, w2) /\
        trace w2 = (trace w1 ++ [Queried FindUnique (table_of filename)])%list.
Proof.
  intros Hres Hup Htext Hparse Htokens.
  destruct (writeJson_resolved_effect B env self serverUrlHash filename V text w c
              Hres Hup Htext) as (w1 & stored & Hw & Hstored & Henc & Hcache & _ & Hres1
                                  & _ & Hup1 & _).
  { intros Htok. now destruct (Htokens Htok). }
  exists w1. split; [exact Hw |]. intros t Ht.
  assert (Hget : cache (set_now (fun _ => t) w1) !! getCacheKey self serverUrlHash filename
                 = Some (mkEntry V (now w1))).
  { cbn. rewrite Hcache. apply lookup_insert_eq. }
  destruct (is_tokens filename) eqn:Htok.
  - destruct (Htokens eq_refl) as (_ & Hgcm & Hiv & Hurl).
    pose proof (is_tokens_eq _ Htok) as ->.
    destruct (encrypt_then_decrypt B env text (userId self) w Hgcm Hiv)
      as (ct & Henc' & _ & Hdec).
    rewrite Henc in Henc'. injection Henc' as ->.
    apply (readJson_expired_tokens_from_store B env self serverUrlHash _ _ ct text V Hget);
      auto.
  - subst stored.
    apply (readJson_expired_from_store B env self serverUrlHash filename _ c _ text V Hget);
      auto.
Qed.

Lemma write_then_read_after_expiry_witness :
  (exists w1 w2,
     writeJson Sample.builtins Sample.env Sample.storage "abc" "state.json" JNull
       (Sample.with_global_prisma (Sample.start 0)) = (Ok tt, w1) /\
     readJson Sample.builtins Sample.env Sample.storage "abc" "state.json"
       (set_now (fun _ => now w1 + 5000) w1) = (Ok JNull, w2)) /\
  (exists w1 w2,
     writeJson Sample.builtins Sample.env Sample.storage "abc" "tokens.json" (JString "t0k3n")
       (Sample.with_global_prisma (Sample.start 0)) = (Ok tt, w1) /\
     readJson Sample.builtins Sample.env Sample.storage "abc" "tokens.json"
       (set_now (fun _ => now w1 + 5000) w1) = (Ok (JString "t0k3n"), w2)).
Proof.
  split.
  - destruct (write_then_read_after_expiry Sample.builtins Sample.env Sample.storage
                "abc" "state.json" JNull "null"
                (Sample.with_global_prisma (Sample.start 0)) _ eq_refl eq_refl eq_refl eq_refl)
      as (w1 & Hw & Hr); [discriminate |].
    destruct (Hr (now w1 + 5000)) as (w2 & Hread & _); [unfold CACHE_TTL; lia |].
    exists w1, w2. split; assumption.
  - destruct (write_then_read_after_expiry Sample.builtins Sample.env Sample.storage
                "abc" "tokens.json" (JString "t0k3n") (Sample.quoted "t0k3n")
                (Sample.with_global_prisma (Sample.start 0)) _ eq_refl eq_refl eq_refl eq_refl)
      as (w1 & Hw & Hr).
    { intros _. split; [exists JUndefined; reflexivity |].
      split; [exact sample_gcm_reads_back |]. split; reflexivity. }
    destruct (Hr (now w1 + 5000)) as (w2 & Hread & _); [unfold CACHE_TTL; lia |].
    exists w1, w2. split; assumption.
Defined.

(** ** Rows that more than one address maps to *)

Section SharedRows.
Context (B : Builtins) (env : ProcessEnv).

(** Two addresses kept in the same row of a plaintext table: what one
    instance writes under the first, another reads under the second. *)
Lemma write_read_same_row self self' serverUrlHash serverUrlHash' filename filename'
    V text w c :
  prisma_global w = Some c ->
  outage (db w) = None ->
  JSON_stringify B V = Some text ->
  JSON_parse B text = Ok V ->
  is_tokens filename = false -> is_tokens filename' = false ->
  (forall d, stored_text self' serverUrlHash' filename' d
             = stored_text self serverUrlHash filename d) ->
  getCacheKey self' serverUrlHash' filename' <> getCacheKey self serverUrlHash filename ->
  cache w !! getCacheKey self' serverUrlHash' filename' = None ->
  exists w1 w2,
    writeJson B env self serverUrlHash filename V w = (Ok tt, w1) /\
    readJson B env self' serverUrlHash' filename' w1 = (Ok V, w2).
Proof.
  intros Hres Hup Htext Hparse Htok Htok' Hsame Hkey Hmiss.
  destruct (writeJson_resolved_effect B env self serverUrlHash filename V text w c
              Hres Hup Htext) as (w1 & stored & Hw & Hstored & Henc & Hcache & _ & Hres1
                                  & _ & Hup1 & _).
  { rewrite Htok. discriminate. }
  rewrite Htok in Henc. subst stored.
  exists w1. eexists. split; [exact Hw |].
  assert (Hmiss1 : cache w1 !! getCacheKey self' serverUrlHash' filename' = None).
  { rewrite Hcache, lookup_insert_ne by congruence. exact Hmiss. }
  rewrite (readJson_absent B env self' serverUrlHash' filename' w1 Hmiss1).
  rewrite (readJson_fetch_resolved B env self' serverUrlHash' filename' _ _ c Htok');
    [| exact Hres1].
  cbn zeta. cbn [db set_cache]. rewrite Hup1, Hsame, Hstored, Hparse. reflexivity.
Qed.
End SharedRows.

(** The row of [client_info.json] is keyed by the server hash alone, so it
    is one row for all tenants: what one instance writes there, an instance
    of any other user or connection reads (its own cache having no entry).
    The identifier [prisma] resolves, the store serves, and [JSON.parse]
    inverts [JSON.stringify] on the value. *)
Theorem client_info_is_shared_between_tenants (B : Builtins) (env : ProcessEnv)
    (self self' : DatabaseStorage) (serverUrlHash : string) (V : JsValue) (text : string)
    (w : World) (c : PrismaClient) :
  prisma_global w = Some c ->
  outage (db w) = None ->
  JSON_stringify B V = Some text ->
  JSON_parse B text = Ok V ->
  getCacheKey self' serverUrlHash "client_info.json"
  <> getCacheKey self serverUrlHash "client_info.json" ->
  cache w !! getCacheKey self' serverUrlHash "client_info.json" = None ->
  exists w1 w2,
    writeJson B env self serverUrlHash "client_info.json" V w = (Ok tt, w1) /\
    readJson B env self' serverUrlHash "client_info.json" w1 = (Ok V, w2).
Proof.
  intros Hres Hup Htext Hparse Hkey Hmiss.
  apply (write_read_same_row B env self self' serverUrlHash serverUrlHash
           "client_info.json" "client_info.json" V text w c); auto.
Qed.

Lemma client_info_is_shared_between_tenants_witness :
  exists w1 w2,
    writeJson Sample.builtins Sample.env Sample.storage "abc" "client_info.json"
      (JString "client-of-u1") (Sample.with_global_prisma (Sample.start 0)) = (Ok tt, w1) /\
    readJson Sample.builtins Sample.env (mkStorage 1 "u2" "c7") "abc" "client_info.json" w1
    = (Ok (JString "client-of-u1"), w2).
Proof.
  apply (client_info_is_shared_between_tenants Sample.builtins Sample.env Sample.storage
           (mkStorage 1 "u2" "c7") "abc" (JString "client-of-u1")
           (Sample.quoted "client-of-u1") (Sample.with_global_prisma (Sample.start 0))
           (mkClient "postgresql://db/mcp"));
    try reflexivity. discriminate.
Defined.

(** The key of a generic row is [serverUrlHash + "_" + filename], so two
    addresses of one tenant whose hash and filename concatenate to the same
    text are one row: what is written under the first is read under the
    second, although the cache keeps them apart. *)
Theorem generic_rows_collide_on_the_joined_key (B : Builtins) (env : ProcessEnv)
    (self : DatabaseStorage) (serverUrlHash serverUrlHash' filename filename' : string)
    (V : JsValue) (text : string) (w : World) (c : PrismaClient) :
  prisma_global w = Some c ->
  outage (db w) = None ->
  JSON_stringify B V = Some text ->
  JSON_parse B text = Ok V ->
  table_of filename = StorageTable -> table_of filename' = StorageTable ->
  serverUrlHash' +:+ "_" +:+ filename' = serverUrlHash +:+ "_" +:+ filename ->
  getCacheKey self serverUrlHash' filename' <> getCacheKey self serverUrlHash filename ->
  cache w !! getCacheKey self serverUrlHash' filename' = None ->
  exists w1 w2,
    writeJson B env self serverUrlHash filename V w = (Ok tt, w1) /\
    readJson B env self serverUrlHash' filename' w1 = (Ok V, w2).
Proof.
  intros Hres Hup Htext Hparse Ht Ht' Hjoin Hkey Hmiss.
  assert (Hgen : forall f, table_of f = StorageTable ->
                           is_tokens f = false /\ is_client_info f = false).
  { intros f. unfold table_of.
    destruct (is_tokens f); [discriminate |]. destruct (is_client_info f); [discriminate |].
    auto. }
  destruct (Hgen _ Ht) as [Htok Hci], (Hgen _ Ht') as [Htok' Hci'].
  apply (write_read_same_row B env self self serverUrlHash serverUrlHash'
           filename filename' V text w c); auto.
  intros d. unfold stored_text. now rewrite Htok, Hci, Htok', Hci', Hjoin.
Qed.

Lemma generic_rows_collide_on_the_joined_key_witness :
  exists w1 w2,
    writeJson Sample.builtins Sample.env Sample.storage "abc" "def_state.json"
      (JString "of abc") (Sample.with_global_prisma (Sample.start 0)) = (Ok tt, w1) /\
    readJson Sample.builtins Sample.env Sample.storage "abc_def" "state.json" w1
    = (Ok (JString "of abc"), w2).
Proof.
  apply (generic_rows_collide_on_the_joined_key Sample.builtins Sample.env Sample.storage
           "abc" "abc_def" "def_state.json" "state.json" (JString "of abc")
           (Sample.quoted "of abc") (Sample.with_global_prisma (Sample.start 0))
           (mkClient "postgresql://db/mcp"));
    try reflexivity. discriminate.
Defined.

(** ** Delete, failed writes, and the token row *)

Section DeleteAndFailures.
Context (B : Builtins) (env : ProcessEnv).

Lemma readJson_after_delete self serverUrlHash filename w c :
  prisma_global w = Some c ->
  outage (db w) = None ->
  cache w !! getCacheKey self serverUrlHash filename = None ->
  stored_text self serverUrlHash filename (db w) = None ->
  fst (readJson B env self serverUrlHash filename w) = Ok JUndefined.
Proof.
  intros Hres Hup Hmiss Hnone.
  rewrite (readJson_absent B env self serverUrlHash filename w Hmiss).
  set (w0 := set_cache (delete (getCacheKey self serverUrlHash filename)) w).
  destruct (is_tokens filename) eqn:Htok.
  - pose proof (is_tokens_eq _ Htok) as Hf. subst filename.
    destruct (getPrismaClient env w0) as [[c' | e] w1] eqn:Hclient.
    + rewrite (readJson_fetch_tokens_stored B env self serverUrlHash _ w0 c' w1 Hclient).
      assert (Hdb : db w1 = db w).
      { pose proof (getPrismaClient_keeps_db env w0) as H. rewrite Hclient in H.
        now symmetry. }
      cbn zeta. now rewrite Hdb, Hup, Hnone.
    + now rewrite (readJson_fetch_tokens_no_client B env self serverUrlHash _ w0 e w1 Hclient).
  - rewrite (readJson_fetch_resolved B env self serverUrlHash filename _ w0 c Htok);
      [| exact Hres].
    cbn zeta. cbn [db set_cache w0]. now rewrite Hup, Hnone.
Qed.
End DeleteAndFailures.

(** After a [delete] that the store served, the address is gone for the
    instance: no row, no cache entry, and the [readJson] that follows
    returns [undefined]. *)
Theorem delete_then_read_is_absent (B : Builtins) (env : ProcessEnv) (self : DatabaseStorage)
    (serverUrlHash filename : string) (w : World) (c : PrismaClient) :
  prisma_global w = Some c ->
  outage (db w) = None ->
  exists w1,
    delete_ self serverUrlHash filename w = (Ok tt, w1) /\
    stored_text self serverUrlHash filename (db w1) = None /\
    cache w1 !! getCacheKey self serverUrlHash filename = None /\
    fst (readJson B env self serverUrlHash filename w1) = Ok JUndefined.
Proof.
  intros Hres Hup. rewrite (delete_resolved self serverUrlHash filename w c Hres).
  cbn zeta. rewrite Hup. eexists. split; [reflexivity |].
  assert (Hstored : stored_text self serverUrlHash filename
                      (without_record self serverUrlHash filename (db w)) = None)
    by apply stored_text_without.
  assert (Hmiss : delete (getCacheKey self serverUrlHash filename) (cache w)
                    !! getCacheKey self serverUrlHash filename = None)
    by apply lookup_delete_eq.
  split; [exact Hstored |]. split; [exact Hmiss |].
  apply (readJson_after_delete B env self serverUrlHash filename _ c); try assumption.
  cbn. unfold without_record.
  destruct (is_tokens filename); [| destruct (is_client_info filename)]; exact Hup.
Qed.

Lemma delete_then_read_is_absent_witness :
  exists w1,
    delete_ Sample.storage "abc" "tokens.json"
      (Sample.with_global_prisma (Sample.with_null_token (Sample.start 0))) = (Ok tt, w1) /\
    fst (readJson Sample.builtins Sample.env Sample.storage "abc" "tokens.json" w1)
    = Ok JUndefined.
Proof.
  destruct (delete_then_read_is_absent Sample.builtins Sample.env Sample.storage
              "abc" "tokens.json"
              (Sample.with_global_prisma (Sample.with_null_token (Sample.start 0)))
              _ eq_refl eq_refl) as (w1 & Hd & _ & _ & Hr).
  exists w1. split; assumption.
Defined.

(** A write that the record store refuses changes nothing the adapter
    keeps: [writeJson] throws the store's own error after logging it, the
    tables are as before and the cache is not refreshed, so an entry that
    was cached for the address is still served. *)
Theorem failed_write_changes_nothing (B : Builtins) (env : ProcessEnv)
    (self : DatabaseStorage) (serverUrlHash filename : string) (V : JsValue) (text : string)
    (w : World) (c : PrismaClient) (e : JsError) :
  prisma_global w = Some c ->
  outage (db w) = Some e ->
  JSON_stringify B V = Some text ->
  (is_tokens filename = true -> exists t, get_property V "token_type" = Ok t) ->
  exists w1,
    writeJson B env self serverUrlHash filename V w = (Throw e, w1) /\
    db w1 = db w /\
    cache w1 = cache w /\
    trace w1 = (trace w ++ [Queried Upsert (table_of filename);
                            Logged ("Error writing " +:+ filename +:+ " to database:") e])%list.
Proof.
  intros Hres Hdown Htext Hprop. unfold writeJson, writeJson_try, table_of.
  destruct (is_tokens filename) eqn:Htok; [| destruct (is_client_info filename) eqn:Hci].
  - destruct (encrypt_draws B env (JSON_stringify B V) (userId self) w)
      as (r & Henc & _ & Hsome).
    destruct Hsome as [ct ->]; [rewrite Htext; discriminate |].
    destruct (Hprop eq_refl) as [t Ht].
    unfold token_upsert, request. run. rewrite Henc. cbn. rewrite Hres, Ht. cbn.
    rewrite Hdown. cbn. eexists. split; [reflexivity |]. cbn.
    rewrite <- app_assoc. repeat split; reflexivity.
  - unfold clientInfo_upsert, request. run. rewrite Hres, Htext. cbn. rewrite Hdown. cbn.
    eexists. split; [reflexivity |]. cbn. rewrite <- app_assoc. repeat split; reflexivity.
  - unfold storage_upsert, request. run. rewrite Hres, Htext. cbn. rewrite Hdown. cbn.
    eexists. split; [reflexivity |]. cbn. rewrite <- app_assoc. repeat split; reflexivity.
Qed.

Lemma failed_write_changes_nothing_witness :
  exists w1,
    writeJson Sample.builtins Sample.env Sample.storage "abc" "tokens.json" Sample.tokens
      (Sample.down (PrismaError "P1001") (Sample.with_global_prisma (Sample.start 0)))
    = (Throw (PrismaError "P1001"), w1) /\
    cache w1 = ∅.
Proof.
  destruct (failed_write_changes_nothing Sample.builtins Sample.env Sample.storage
              "abc" "tokens.json" Sample.tokens _
              (Sample.down (PrismaError "P1001") (Sample.with_global_prisma (Sample.start 0)))
              _ (PrismaError "P1001") eq_refl eq_refl eq_refl)
    as (w1 & Hw & _ & Hcache & _).
  - intros _. exists (JString "bearer"). reflexivity.
  - exists w1. split; [exact Hw |]. rewrite Hcache. reflexivity.
Defined.

(** What [writeJson] leaves in the token row.  A first write creates the
    row with the text of [encrypt], an empty [serverUrl] and the value's
    [token_type], or ['oauth'] when that is falsy.  A later write replaces
    the text and stamps [lastUpdated] with the time of the call, and keeps
    the [tokenType] and the [serverUrl] of the row: the [token_type] of the
    new value is not stored. *)
Theorem token_row_after_write (B : Builtins) (env : ProcessEnv) (self : DatabaseStorage)
    (serverUrlHash : string) (V : JsValue) (text : string) (w : World) (c : PrismaClient)
    (t : JsValue) :
  prisma_global w = Some c ->
  outage (db w) = None ->
  JSON_stringify B V = Some text ->
  get_property V "token_type" = Ok t ->
  exists w1 ct,
    writeJson B env self serverUrlHash "tokens.json" V w = (Ok tt, w1) /\
    encrypt B env (Some text) (userId self) w = (Ok ct, set_drawn S w) /\
    mCPRemoteToken (db w1) !! (userId self, connectionId self, serverUrlHash)
    = Some match mCPRemoteToken (db w) !! (userId self, connectionId self, serverUrlHash) with
           | None => mkTokenRow ct (if truthy t then t else JString "oauth") "" None
           | Some old => mkTokenRow ct (tokenType old) (token_serverUrl old) (Some (now w))
           end.
Proof.
  intros Hres Hup Htext Ht. unfold writeJson, writeJson_try.
  change (is_tokens "tokens.json") with true. cbn iota.
  destruct (encrypt_draws B env (JSON_stringify B V) (userId self) w)
    as (r & Henc & _ & Hsome).
  destruct Hsome as [ct ->]; [rewrite Htext; discriminate |].
  unfold token_upsert, request, setCache. run. rewrite Henc. cbn. rewrite Hres, Ht. cbn.
  rewrite Hup. cbn. rewrite Htext in Henc.
  eexists. exists ct. split; [reflexivity |]. split; [exact Henc |].
  cbn. rewrite lookup_insert_eq.
  destruct (mCPRemoteToken (db w) !! _); reflexivity.
Qed.

Lemma token_row_after_write_witness :
  exists w1 w2,
    writeJson Sample.builtins Sample.env Sample.storage "abc" "tokens.json" Sample.tokens
      (Sample.with_global_prisma (Sample.start 0)) = (Ok tt, w1) /\
    writeJson Sample.builtins Sample.env Sample.storage "abc" "tokens.json"
      (JObject [("token_type", JString "mac")]) w1 = (Ok tt, w2) /\
    tokenType <$> mCPRemoteToken (db w1) !! ("u1", "c1", "abc") = Some (JString "bearer") /\
    tokenType <$> mCPRemoteToken (db w2) !! ("u1", "c1", "abc") = Some (JString "bearer").
Proof.
  destruct (token_row_after_write Sample.builtins Sample.env Sample.storage "abc"
              Sample.tokens _ (Sample.with_global_prisma (Sample.start 0)) _
              (JString "bearer") eq_refl eq_refl eq_refl eq_refl)
    as (w1 & ct & Hw1 & _ & Hrow1).
  assert (Hres1 : prisma_global w1 = Some (mkClient "postgresql://db/mcp") /\
                  outage (db w1) = None).
  { assert (H : w1 = snd (writeJson Sample.builtins Sample.env Sample.storage "abc"
                            "tokens.json" Sample.tokens
                            (Sample.with_global_prisma (Sample.start 0))))
      by now rewrite Hw1.
    rewrite H. split; vm_compute; reflexivity. }
  destruct Hres1 as [Hres1 Hup1].
  destruct (token_row_after_write Sample.builtins Sample.env Sample.storage "abc"
              (JObject [("token_type", JString "mac")]) _ w1 _
              (JString "mac") Hres1 Hup1 eq_refl eq_refl)
    as (w2 & ct2 & Hw2 & _ & Hrow2).
  exists w1, w2. split; [exact Hw1 |]. split; [exact Hw2 |].
  change (userId Sample.storage) with "u1" in Hrow1, Hrow2.
  change (connectionId Sample.storage) with "c1" in Hrow1, Hrow2.
  rewrite Hrow2, Hrow1. split; reflexivity.
Defined.

(** ** The exported functions in durable mode *)

Lemma getStorage_frame (env : ProcessEnv) (w : World) :
  prisma_global (snd (getStorage env w)) = prisma_global w /\
  db (snd (getStorage env w)) = db w /\
  cache (snd (getStorage env w)) = cache w.
Proof.
  unfold getStorage.
  destruct (negb (DB_MODE env) || _ || _); [repeat split |].
  destruct (storageInstance w); repeat split.
Qed.

Lemma truthy_has_token_type (V : JsValue) :
  truthy V = true -> exists t, get_property V "token_type" = Ok t.
Proof. destruct V; cbn; intros H; try discriminate; eauto. Qed.

Section DurableExports.
Context (B : Builtins) (env : ProcessEnv) (F : FileConfig).

(** A write through the exported function, then the state a read through
    the exported function starts from. *)
Lemma writeJsonFile_durable serverUrlHash filename V text w c storage w0 :
  getStorage env w = (Ok (Some storage), w0) ->
  prisma_global w = Some c ->
  outage (db w) = None ->
  JSON_stringify B V = Some text ->
  (is_tokens filename = true -> exists t, get_property V "token_type" = Ok t) ->
  V <> JNull ->
  exists w1,
    writeJsonFile B env F serverUrlHash filename V w = (Ok tt, w1) /\
    getStorage env w1 = (Ok (Some storage), w1) /\
    readJson B env storage serverUrlHash filename w1 = (Ok V, w1).
Proof.
  intros Hsel Hres Hup Htext Hprop Hnn.
  destruct (getStorage_some_inv env w storage w0 Hsel) as (Hm & Hu & Hc & Hs & _).
  destruct (getStorage_frame env w) as (Hres0 & Hdb0 & _). rewrite Hsel in Hres0, Hdb0.
  cbn in Hres0, Hdb0.
  destruct (writeJson_resolved_effect B env storage serverUrlHash filename V text w0 c)
    as (w1 & stored & Hw & _ & _ & Hcache & _); try congruence; [exact Hprop |].
  exists w1. split; [| split].
  - unfold writeJsonFile. unfold bind at 1. now rewrite Hsel.
  - apply getStorage_memo; try assumption.
    pose proof (proj1 (keeps_writeJson B env storage serverUrlHash filename V w0)) as Hk.
    rewrite Hw in Hk. cbn in Hk. congruence.
  - apply (readJson_hit B env storage serverUrlHash filename w1 (mkEntry V (now w1)));
      cbn; [rewrite Hcache; apply lookup_insert_eq | unfold CACHE_TTL; lia | exact Hnn].
Qed.
End DurableExports.

(** In durable mode, with the identifier [prisma] resolved and the store
    serving, a text written with [writeTextFile] is read back by
    [readTextFile] unless it is empty: an empty text is written without
    error, and the read that follows throws. *)
Theorem text_file_round_trip (B : Builtins) (env : ProcessEnv) (F : FileConfig)
    (serverUrlHash filename text stext : string) (errorMessage : option string)
    (w : World) (c : PrismaClient) (storage : DatabaseStorage) (w0 : World) :
  getStorage env w = (Ok (Some storage), w0) ->
  prisma_global w = Some c ->
  outage (db w) = None ->
  JSON_stringify B (JString text) = Some stext ->
  exists w1,
    writeTextFile B env F serverUrlHash filename text w = (Ok tt, w1) /\
    (text <> "" ->
     readTextFile B env F serverUrlHash filename errorMessage w1 = (Ok text, w1)) /\
    (text = "" ->
     readTextFile B env F serverUrlHash filename errorMessage w1
     = (Throw (Error (str_or errorMessage ("Error reading " +:+ filename))), w1)).
Proof.
  intros Hsel Hres Hup Htext.
  destruct (writeJsonFile_durable B env F serverUrlHash filename (JString text) stext
              w c storage w0 Hsel Hres Hup Htext) as (w1 & Hw & Hsel1 & Hread);
    [intros _; exists JUndefined; reflexivity | discriminate |].
  exists w1. split; [| split].
  - unfold writeJsonFile in Hw. unfold bind at 1 in Hw. rewrite Hsel in Hw.
    unfold writeTextFile, writeText. unfold bind at 1. now rewrite Hsel.
  - intros Hne. rewrite (readTextFile_of B env F _ _ _ _ _ _ _ _ Hsel1 Hread). cbn.
    apply String.eqb_neq in Hne. now rewrite Hne.
  - intros ->. now rewrite (readTextFile_of B env F _ _ _ _ _ _ _ _ Hsel1 Hread).
Qed.

Lemma text_file_round_trip_witness :
  (exists w1,
     writeTextFile Sample.builtins Sample.env Sample.no_files "abc" "verifier.txt" "s3cr3t"
       (Sample.with_global_prisma (Sample.start 0)) = (Ok tt, w1) /\
     readTextFile Sample.builtins Sample.env Sample.no_files "abc" "verifier.txt" None w1
     = (Ok "s3cr3t", w1)) /\
  (exists w1,
     writeTextFile Sample.builtins Sample.env Sample.no_files "abc" "verifier.txt" ""
       (Sample.with_global_prisma (Sample.start 0)) = (Ok tt, w1) /\
     readTextFile Sample.builtins Sample.env Sample.no_files "abc" "verifier.txt" None w1
     = (Throw (Error "Error reading verifier.txt"), w1)).
Proof.
  split.
  - destruct (text_file_round_trip Sample.builtins Sample.env Sample.no_files
                "abc" "verifier.txt" "s3cr3t" (Sample.quoted "s3cr3t") None
                (Sample.with_global_prisma (Sample.start 0)) _ Sample.storage _
                eq_refl eq_refl eq_refl eq_refl) as (w1 & Hw & Hgood & _).
    exists w1. split; [exact Hw | apply Hgood; discriminate].
  - destruct (text_file_round_trip Sample.builtins Sample.env Sample.no_files
                "abc" "verifier.txt" "" (Sample.quoted "") None
                (Sample.with_global_prisma (Sample.start 0)) _ Sample.storage _
                eq_refl eq_refl eq_refl eq_refl) as (w1 & Hw & _ & Hbad).
    exists w1. split; [exact Hw | now apply Hbad].
Defined.

(** In durable mode, with the identifier [prisma] resolved and the store
    serving, a truthy value written with [writeJsonFile] comes back from
    [readJsonFile] as the schema's verdict on it: the parsed value when the
    schema accepts, [undefined] when it throws. *)
Theorem json_file_round_trip (B : Builtins) (env : ProcessEnv) (F : FileConfig)
    (serverUrlHash filename : string) (V : JsValue) (text : string) (schema : Schema)
    (w : World) (c : PrismaClient) (storage : DatabaseStorage) (w0 : World) :
  getStorage env w = (Ok (Some storage), w0) ->
  prisma_global w = Some c ->
  outage (db w) = None ->
  JSON_stringify B V = Some text ->
  truthy V = true ->
  exists w1,
    writeJsonFile B env F serverUrlHash filename V w = (Ok tt, w1) /\
    fst (readJsonFile B env F serverUrlHash filename schema w1)
    = match schema V with
      | Ok v => Ok v
      | Throw _ => Ok JUndefined
      end.
Proof.
  intros Hsel Hres Hup Htext Htruthy.
  destruct (writeJsonFile_durable B env F serverUrlHash filename V text
              w c storage w0 Hsel Hres Hup Htext) as (w1 & Hw & Hsel1 & Hread).
  - intros _. now apply truthy_has_token_type.
  - intros ->. discriminate.
  - exists w1. split; [exact Hw |].
    rewrite (readJsonFile_durable B env F _ _ _ schema _ _ Hsel1 V w1 Hread).
    rewrite Htruthy. cbn. destruct (schema V); reflexivity.
Qed.

Lemma json_file_round_trip_witness :
  exists w1,
    writeJsonFile Sample.builtins Sample.env Sample.no_files "abc" "tokens.json"
      Sample.tokens (Sample.with_global_prisma (Sample.start 0)) = (Ok tt, w1) /\
    fst (readJsonFile Sample.builtins Sample.env Sample.no_files "abc" "tokens.json" Ok w1)
    = Ok Sample.tokens.
Proof.
  apply (json_file_round_trip Sample.builtins Sample.env Sample.no_files
           "abc" "tokens.json" Sample.tokens _ Ok
           (Sample.with_global_prisma (Sample.start 0)) _ Sample.storage _
           eq_refl eq_refl eq_refl eq_refl eq_refl).
Defined.

(** ** The client module *)

(** The life of the client.  [getPrismaClient] returns the client the
    module holds, so a second call returns the same one and changes
    nothing; it throws exactly when the module holds none and
    [DATABASE_URL] is unset or empty.  [disconnectPrisma] forgets the
    client once [$disconnect] has resolved: a second call then does
    nothing, [getPrismaClient] builds a new client for [DATABASE_URL], and
    the [SIGINT] and [SIGTERM] handlers end in [process.exit(0)].  When
    [$disconnect] rejects, [disconnectPrisma] and the handlers reject with
    the same error and [process.exit] is not reached. *)
Theorem client_is_built_once_until_disconnected (env : ProcessEnv)
    (disconnect : PrismaClient -> M unit) (w : World) :
  (forall c w1,
     getPrismaClient env w = (Ok c, w1) ->
     prisma_module w1 = Some c /\ getPrismaClient env w1 = (Ok c, w1)) /\
  ((exists e w1, getPrismaClient env w = (Throw e, w1)) <->
   prisma_module w = None /\ str_truthy (env_DATABASE_URL env) = false) /\
  (prisma_module w = None -> disconnectPrisma disconnect w = (Ok tt, w)) /\
  (forall c w2,
     prisma_module w = Some c ->
     disconnect c w = (Ok tt, w2) ->
     disconnectPrisma disconnect w = (Ok tt, set_prisma_module None w2) /\
     disconnectPrisma disconnect (set_prisma_module None w2)
     = (Ok tt, set_prisma_module None w2) /\
     on_SIGINT disconnect w = (Ok (Exited 0), set_prisma_module None w2) /\
     on_SIGTERM disconnect w = (Ok (Exited 0), set_prisma_module None w2) /\
     on_beforeExit disconnect w = (Ok Returned, set_prisma_module None w2) /\
     (str_truthy (env_DATABASE_URL env) = true ->
      getPrismaClient env (set_prisma_module None w2)
      = (Ok (mkClient (str_or (env_DATABASE_URL env) "")),
         set_prisma_module (Some (mkClient (str_or (env_DATABASE_URL env) ""))) w2))) /\
  (forall c e w2,
     prisma_module w = Some c ->
     disconnect c w = (Throw e, w2) ->
     disconnectPrisma disconnect w = (Throw e, w2) /\
     on_SIGINT disconnect w = (Throw e, w2) /\
     on_SIGTERM disconnect w = (Throw e, w2)).
Proof.
  pose proof (getPrismaClient_cases env w) as Hcases.
  split; [| split; [| split; [| split]]].
  - intros c w1 Hget.
    destruct (prisma_module w) as [c0 |] eqn:Hmod.
    + rewrite Hcases in Hget. injection Hget as <- <-. now rewrite Hmod.
    + destruct (str_truthy (env_DATABASE_URL env)); rewrite Hcases in Hget;
        [| discriminate].
      injection Hget as <- <-. split; reflexivity.
  - split.
    + intros (e & w1 & Hget).
      destruct (prisma_module w); [rewrite Hcases in Hget; discriminate |].
      destruct (str_truthy (env_DATABASE_URL env)); [| auto].
      rewrite Hcases in Hget. discriminate.
    + intros [Hmod Hurl]. rewrite Hmod, Hurl in Hcases. eauto.
  - intros Hmod. unfold disconnectPrisma. now rewrite Hmod.
  - intros c w2 Hmod Hdis.
    assert (Hd : disconnectPrisma disconnect w = (Ok tt, set_prisma_module None w2)).
    { unfold disconnectPrisma, bind. now rewrite Hmod, Hdis. }
    split; [exact Hd |]. split; [reflexivity |].
    unfold on_SIGINT, on_SIGTERM, on_beforeExit, bind. rewrite Hd.
    repeat split. intros Hurl.
    pose proof (getPrismaClient_cases env (set_prisma_module None w2)) as H.
    cbn [prisma_module set_prisma_module] in H. rewrite Hurl in H. exact H.
  - intros c e w2 Hmod Hdis.
    assert (Hd : disconnectPrisma disconnect w = (Throw e, w2)).
    { unfold disconnectPrisma, bind. now rewrite Hmod, Hdis. }
    unfold on_SIGINT, on_SIGTERM, bind. rewrite Hd. repeat split.
Qed.

Lemma client_is_built_once_until_disconnected_witness :
  exists c w1,
    getPrismaClient Sample.env (Sample.start 0) = (Ok c, w1) /\
    datasource_url c = "postgresql://db/mcp" /\
    on_SIGINT (fun _ => ret tt) w1 = (Ok (Exited 0), Sample.start 0).
Proof.
  pose (c := mkClient "postgresql://db/mcp").
  pose (w1 := set_prisma_module (Some c) (Sample.start 0)).
  destruct (client_is_built_once_until_disconnected Sample.env (fun _ => ret tt) w1)
    as (_ & _ & _ & Hdis & _).
  destruct (Hdis c w1 eq_refl eq_refl) as (_ & _ & Hint & _).
  exists c, w1. split; [reflexivity |]. split; [reflexivity |]. exact Hint.
Defined.

(** ** Other instances and the cache *)

(** A write or a delete does not invalidate what other keys have cached:
    an instance whose entry for an address is fresh and not [null] goes on
    reading that entry after another address (or the same address under
    another tenant, as for the shared row of [client_info.json]) has been
    written or deleted, until the entry expires. *)
Theorem other_keys_stay_cached (B : Builtins) (env : ProcessEnv)
    (self self' : DatabaseStorage) (serverUrlHash serverUrlHash' filename filename' : string)
    (V : JsValue) (w : World) (cached : CacheEntry) :
  getCacheKey self' serverUrlHash' filename' <> getCacheKey self serverUrlHash filename ->
  cache w !! getCacheKey self' serverUrlHash' filename' = Some cached ->
  data cached <> JNull ->
  (forall w1,
     w1 = snd (writeJson B env self serverUrlHash filename V w) ->
     now w1 - timestamp cached < CACHE_TTL ->
     readJson B env self' serverUrlHash' filename' w1 = (Ok (data cached), w1)) /\
  (forall w1,
     w1 = snd (delete_ self serverUrlHash filename w) ->
     now w1 - timestamp cached < CACHE_TTL ->
     readJson B env self' serverUrlHash' filename' w1 = (Ok (data cached), w1)).
Proof.
  intros Hkey Hget Hnn. split; intros w1 -> Hfresh;
    apply (readJson_hit B env self' serverUrlHash' filename' _ cached); try assumption.
  - rewrite <- Hget. now apply (writeJson_one_key B env self serverUrlHash filename V w).
  - rewrite <- Hget. now apply (delete_one_key self serverUrlHash filename w).
Qed.

Lemma other_keys_stay_cached_witness :
  let w := Sample.with_global_prisma
             (set_cache (insert "u2:c7:abc:client_info.json" (mkEntry (JString "old") 0))
                        (Sample.start 10)) in
  let w1 := snd (writeJson Sample.builtins Sample.env Sample.storage "abc" "client_info.json"
                   (JString "new") w) in
  stored_text Sample.storage "abc" "client_info.json" (db w1) = Some (Sample.quoted "new") /\
  readJson Sample.builtins Sample.env (mkStorage 1 "u2" "c7") "abc" "client_info.json" w1
  = (Ok (JString "old"), w1).
Proof.
  cbv zeta. split; [vm_compute; reflexivity |].
  destruct (other_keys_stay_cached Sample.builtins Sample.env Sample.storage
              (mkStorage 1 "u2" "c7") "abc" "abc" "client_info.json" "client_info.json"
              (JString "new")
              (Sample.with_global_prisma
                 (set_cache (insert "u2:c7:abc:client_info.json" (mkEntry (JString "old") 0))
                            (Sample.start 10)))
              (mkEntry (JString "old") 0)) as [Hwrite _];
    [discriminate | vm_compute; reflexivity | discriminate |].
  apply Hwrite; [reflexivity | vm_compute; reflexivity].
Defined.
